(** * Coffee-shop backend: checkout, payment gateway client and payment callback

    A shallow embedding of [main.py] (a FastAPI application backed by a
    MongoDB database and the MyFatoorah payment gateway) together with the
    properties its specification states about it.

    Layout of the development:
    - [Py]: the Python values the program manipulates (JSON data, BSON
      documents), dictionaries, truthiness and [str];
    - [Effects]: the world the handlers run in (environment variables, the
      database, the payment gateway) and the state-and-exception monad the
      handlers are written in;
    - [Mongo]: collections, equality filters, [insert_one], [find_one],
      [update_one];
    - [App]: the program itself, function by function;
    - [Props]: the vocabulary the properties are stated in;
    - [Bed], [More]: concrete worlds and payloads for the examples;
    - [Diag]: the diagnostic endpoint;
    - the lemmas on each layer, then the properties of the specification,
      each under the identifier of its claim. *)

From Stdlib Require Import ZArith QArith String Ascii List Bool Lia.
From stdpp Require Import prelude strings pretty gmap.

Open Scope string_scope.
Open Scope Z_scope.

(* ===================================================================== *)
(** ** Python values                                                      *)
(* ===================================================================== *)

Module Py.

(** The values that flow through the program: JSON data received from the
    gateway, and BSON documents stored in MongoDB.  A Python [float] is
    represented by the rational it denotes.  A dictionary is an association
    list: Python dictionaries and BSON documents keep insertion order. *)
#[warnings="-register-all"]
Inductive value : Type :=
  | VNone
  | VBool (b : bool)
  | VInt (n : Z)
  | VFloat (q : Q)
  | VStr (s : string)
  | VObjectId (o : N)
  | VList (l : list value)
  | VDict (d : list (string * value)).

Definition dict : Type := list (string * value).

(** [d.get(k)] as an option, [None] when the key is missing. *)
Fixpoint lookup (k : string) (d : dict) : option value :=
  match d with
  | [] => None
  | (k', v) :: d' => if String.eqb k k' then Some v else lookup k d'
  end.

(** [d.get(k)]: Python's [None] when the key is missing. *)
Definition get (d : dict) (k : string) : value :=
  match lookup k d with
  | Some v => v
  | None => VNone
  end.

(** [d.get(k, dflt)]. *)
Definition get_default (d : dict) (k : string) (dflt : value) : value :=
  match lookup k d with
  | Some v => v
  | None => dflt
  end.

(** [d[k] = v]: replaces the value in place when the key exists, appends the
    entry otherwise. *)
Fixpoint set (k : string) (v : value) (d : dict) : dict :=
  match d with
  | [] => [(k, v)]
  | (k', v') :: d' =>
      if String.eqb k k' then (k', v) :: d' else (k', v') :: set k v d'
  end.

(** [bool(v)]. *)
Definition truthy (v : value) : bool :=
  match v with
  | VNone => false
  | VBool b => b
  | VInt n => negb (n =? 0)
  | VFloat q => negb (Qnum q =? 0)
  | VStr s => negb (String.eqb s "")
  | VObjectId _ => true
  | VList l => match l with [] => false | _ => true end
  | VDict d => match d with [] => false | _ => true end
  end.

(** [bool(s)] for a string. *)
Definition str_truthy (s : string) : bool := negb (String.eqb s "").

(** [a or b]. *)
Definition or_ (a b : value) : value := if truthy a then a else b.

(** [type(v).__name__]. *)
Definition type_name (v : value) : string :=
  match v with
  | VNone => "NoneType"
  | VBool _ => "bool"
  | VInt _ => "int"
  | VFloat _ => "float"
  | VStr _ => "str"
  | VObjectId _ => "ObjectId"
  | VList _ => "list"
  | VDict _ => "dict"
  end.

(** Texts are held as their UTF-8 bytes.  A text is ASCII when every byte
    is below 128. *)
Definition is_ascii_char (c : ascii) : bool := Nat.ltb (nat_of_ascii c) 128.

Fixpoint is_ascii (s : string) : bool :=
  match s with
  | EmptyString => true
  | String c s' => is_ascii_char c && is_ascii s'
  end.

(** Lower-casing of an ASCII text: the letters A-Z move to a-z. *)
Definition lower_ascii (c : ascii) : ascii :=
  let n := nat_of_ascii c in
  if (Nat.leb 65 n && Nat.leb n 90)%bool then ascii_of_nat (n + 32) else c.

Fixpoint lower_ascii_text (s : string) : string :=
  match s with
  | EmptyString => EmptyString
  | String c s' => String (lower_ascii c) (lower_ascii_text s')
  end.

(** What the model takes from the interpreter as an interface: the text
    [repr] gives a float, an ObjectId or a container, on which [str] depends,
    and [str.lower()] on a text that is not ASCII, which follows the Unicode
    case tables. *)
Class Repr := {
  repr : value -> string;
  unicode_lower : string -> string
}.

(** [s.lower()]. *)
Definition lower `{Repr} (s : string) : string :=
  if is_ascii s then lower_ascii_text s else unicode_lower s.

(** [str(v)]. *)
Definition str `{Repr} (v : value) : string :=
  match v with
  | VNone => "None"
  | VBool true => "True"
  | VBool false => "False"
  | VInt n => pretty n
  | VStr s => s
  | _ => repr v
  end.

(** [s or ""] for an optional string. *)
Definition or_empty (o : option string) : string :=
  match o with
  | Some s => if str_truthy s then s else ""
  | None => ""
  end.

(** An optional string as a value. *)
Definition of_opt (o : option string) : value :=
  match o with
  | Some s => VStr s
  | None => VNone
  end.

(** [v is None]. *)
Definition is_none (v : value) : bool :=
  match v with
  | VNone => true
  | _ => false
  end.

(** [bool(d)] for a dictionary. *)
Definition dict_truthy (d : dict) : bool :=
  match d with
  | [] => false
  | _ => true
  end.

(** Rounding to the nearest integer, ties to the even one. *)
Definition round_half_even (q : Q) : Z :=
  let n := Qnum q in
  let d := Z.pos (Qden q) in
  let f := n / d in
  let r := n mod d in
  if 2 * r <? d then f
  else if d <? 2 * r then f + 1
  else if Z.even f then f else f + 1.

(** [round(q, 3)]. *)
Definition round3 (q : Q) : Q :=
  Qmake (round_half_even (q * 1000)%Q) 1000.

End Py.

(* ===================================================================== *)
(** ** The world and the monad of the handlers                            *)
(* ===================================================================== *)

Module Effects.
Import Py.

(** The exceptions of the program: FastAPI's [HTTPException], and every
    other exception, of which the program only ever uses [str(e)]. *)
Inductive exn : Type :=
  | HTTPException (status_code : Z) (detail : string)
  | Exception (message : string).

Definition exn_str (e : exn) : string :=
  match e with
  | HTTPException c d => pretty c ++ ": " ++ d
  | Exception m => m
  end.

Inductive result (A : Type) : Type :=
  | Ok (a : A)
  | Raise (e : exn).
Arguments Ok {A} a.
Arguments Raise {A} e.

(** The catalog entry held in the module-level [PRODUCT] dictionary. *)
Record product : Type := {
  id : string;
  title : string;
  short : string;
  description : string;
  price : Q;
  currency : string;
  in_stock : bool;
  images : list string;
  specs : list string
}.

(** A stored document: the ObjectId the server assigned, and the other
    fields. *)
Record stored : Type := { doc_id : N; doc_fields : dict }.

(** The database: its collections by name, and the next ObjectId. *)
Record database : Type := {
  collections : gmap string (list stored);
  next_id : N
}.

(** A call [requests.post(url, json=..., headers=..., timeout=...)]. *)
Record http_request : Type := {
  url : string;
  json : dict;
  headers : list (string * string);
  timeout : Z
}.

(** What [resp.json()] gives: a decoding error or the decoded data. *)
Inductive body : Type :=
  | NotJson (err : string)
  | Json (data : value).

(** What [requests.post] gives: an exception (connection refused, timeout,
    ...) or a response. *)
Inductive http_result : Type :=
  | RequestException (err : string)
  | Response (status_code : Z) (b : body).

(** The world a handler runs in.  [faults] scripts the database driver: each
    operation on the database consumes the head of the list and raises when
    it is [Some msg]; an empty script is a healthy database. *)
Record world : Type := {
  PRODUCT : product;
  environ : gmap string string;
  db : database;
  faults : list (option string);
  gateway : http_request -> http_result;
  posted : list http_request
}.

Definition with_db (d : database) (w : world) : world :=
  {| PRODUCT := PRODUCT w; environ := environ w; db := d;
     faults := faults w; gateway := gateway w; posted := posted w |}.

Definition with_faults (fs : list (option string)) (w : world) : world :=
  {| PRODUCT := PRODUCT w; environ := environ w; db := db w;
     faults := fs; gateway := gateway w; posted := posted w |}.

Definition with_posted (ps : list http_request) (w : world) : world :=
  {| PRODUCT := PRODUCT w; environ := environ w; db := db w;
     faults := faults w; gateway := gateway w; posted := ps |}.

(** Computations: they read and change the world, and return or raise. *)
Definition M (A : Type) : Type := world -> result A * world.

#[global] Instance M_ret : MRet M := fun A a w => (Ok a, w).

#[global] Instance M_bind : MBind M := fun A B f m w =>
  match m w with
  | (Ok a, w') => f a w'
  | (Raise e, w') => (Raise e, w')
  end.

Definition raise {A} (e : exn) : M A := fun w => (Raise e, w).

(** [try: body except Exception as e: handler(e)]. *)
Definition try_except {A} (body : M A) (handler : exn -> M A) : M A :=
  fun w =>
    match body w with
    | (Ok a, w') => (Ok a, w')
    | (Raise e, w') => handler e w'
    end.

(** Reading a component of the world. *)
Definition gets {A} (f : world -> A) : M A := fun w => (Ok (f w), w).

End Effects.

(* ===================================================================== *)
(** ** MongoDB: collections, equality filters, the three driver calls     *)
(* ===================================================================== *)

Module Mongo.
Import Py Effects.

(** Equality of BSON values: numbers compare by value across the integer
    and floating-point types, documents field by field in order. *)
Fixpoint value_eqb (a b : value) {struct a} : bool :=
  match a, b with
  | VNone, VNone => true
  | VBool x, VBool y => Bool.eqb x y
  | VInt x, VInt y => x =? y
  | VInt x, VFloat y => Qeq_bool (inject_Z x) y
  | VFloat x, VInt y => Qeq_bool x (inject_Z y)
  | VFloat x, VFloat y => Qeq_bool x y
  | VStr x, VStr y => String.eqb x y
  | VObjectId x, VObjectId y => N.eqb x y
  | VList x, VList y =>
      (fix all2 (x y : list value) {struct x} : bool :=
         match x, y with
         | [], [] => true
         | a' :: x', b' :: y' => value_eqb a' b' && all2 x' y'
         | _, _ => false
         end) x y
  | VDict x, VDict y =>
      (fix all2 (x y : list (string * value)) {struct x} : bool :=
         match x, y with
         | [], [] => true
         | (k, a') :: x', (k', b') :: y' =>
             String.eqb k k' && value_eqb a' b' && all2 x' y'
         | _, _ => false
         end) x y
  | _, _ => false
  end.

(** The document a query returns: the [_id] first, then the fields. *)
Definition as_dict (sd : stored) : dict :=
  ("_id", VObjectId (doc_id sd)) :: doc_fields sd.

(** The filter [{field: v}]: the field equals [v]; an array field also
    matches when one of its elements equals [v]; a missing field matches
    [null]. *)
Definition field_matches (field : option value) (v : value) : bool :=
  match field with
  | None => value_eqb VNone v
  | Some (VList l) => value_eqb (VList l) v || existsb (fun x => value_eqb x v) l
  | Some x => value_eqb x v
  end.

(** A filter document is the conjunction of its entries; [{}] matches every
    document.  The filters of the program hold no query operator. *)
Definition matches (filter : dict) (sd : stored) : bool :=
  forallb (fun kv => field_matches (lookup (fst kv) (as_dict sd)) (snd kv))
          filter.

(** The update operator [$set]: assigns each entry in turn.  The updates of
    the program never name [_id]. *)
Definition apply_set (u : dict) (fields : dict) : dict :=
  fold_left (fun d kv => set (fst kv) (snd kv) d) u fields.

Definition patch (u : dict) (sd : stored) : stored :=
  {| doc_id := doc_id sd; doc_fields := apply_set u (doc_fields sd) |}.

(** [update_one] changes the first document the filter matches, in the
    collection's order, and no other. *)
Fixpoint update_first (filter u : dict) (c : list stored) : list stored :=
  match c with
  | [] => []
  | sd :: c' =>
      if matches filter sd then patch u sd :: c'
      else sd :: update_first filter u c'
  end.

Fixpoint find_first (filter : dict) (c : list stored) : option stored :=
  match c with
  | [] => None
  | sd :: c' => if matches filter sd then Some sd else find_first filter c'
  end.

(** [db[name]]: a collection that was never written to is empty. *)
Definition coll (d : database) (name : string) : list stored :=
  default [] (collections d !! name).

Definition db_insert (name : string) (fields : dict) (d : database)
  : N * database :=
  (next_id d,
   {| collections :=
        <[name := (coll d name ++ [{| doc_id := next_id d; doc_fields := fields |}])%list]>
          (collections d);
      next_id := N.succ (next_id d) |}).

Definition db_find (name : string) (filter : dict) (d : database)
  : value * database :=
  (match find_first filter (coll d name) with
   | Some sd => VDict (as_dict sd)
   | None => VNone
   end, d).

Definition db_update (name : string) (filter u : dict) (d : database)
  : unit * database :=
  (tt, {| collections := alter (update_first filter u) name (collections d);
          next_id := next_id d |}).

(** One call to the driver: it raises when the script says so, and runs the
    operation on the database otherwise.  The script stands for every
    exception of the call: a connection that fails, and also a document the
    driver cannot encode or the server refuses (see [storable] below).  A
    world whose script is empty describes calls that go through, which
    they do for the documents [storable] accepts. *)
Definition driver {A} (op : database -> A * database) : M A := fun w =>
  match faults w with
  | Some msg :: fs => (Raise (Exception msg), with_faults fs w)
  | None :: fs => (Ok (fst (op (db w))), with_db (snd (op (db w))) (with_faults fs w))
  | [] => (Ok (fst (op (db w))), with_db (snd (op (db w))) w)
  end.

(** [db[name].insert_one(doc)], giving [inserted_id]. *)
Definition insert_one (name : string) (doc : dict) : M N :=
  driver (db_insert name doc).

(** [db[name].find_one(filter)]: the first matching document or [None]. *)
Definition find_one (name : string) (filter : dict) : M value :=
  driver (db_find name filter).

(** [db[name].update_one(filter, {"$set": u})]. *)
Definition update_one (name : string) (filter u : dict) : M unit :=
  driver (db_update name filter u).

(** *** Documents the store accepts

    The driver raises [OverflowError] on an integer beyond 8 bytes,
    [InvalidDocument] on a field name with a NUL byte and
    [UnicodeEncodeError] on a text that has no UTF-8 encoding (a lone
    surrogate); the server bounds the size of a document (16 MB) and its
    nesting (100 levels), and restricts field names that are empty, start
    with [$] or hold a dot.  [storable] is a sufficient condition for a
    value to be accepted as part of a document, with room to spare: the
    properties that describe calls that go through assume it of the
    payload and of the orders in the store. *)

(** Well-formed UTF-8: [more] bytes of the current character are still to
    come, the next of them between [lo] and [hi]. *)
Fixpoint utf8_from (lo hi more : nat) (s : string) : bool :=
  match s with
  | EmptyString => Nat.eqb more 0
  | String c s' =>
      let n := nat_of_ascii c in
      match more with
      | O =>
          if Nat.ltb n 128 then utf8_from 128 191 0 s'
          else if Nat.leb 194 n && Nat.leb n 223 then utf8_from 128 191 1 s'
          else if Nat.eqb n 224 then utf8_from 160 191 2 s'
          else if Nat.eqb n 237 then utf8_from 128 159 2 s'
          else if Nat.leb 225 n && Nat.leb n 239 then utf8_from 128 191 2 s'
          else if Nat.eqb n 240 then utf8_from 144 191 3 s'
          else if Nat.leb 241 n && Nat.leb n 243 then utf8_from 128 191 3 s'
          else if Nat.eqb n 244 then utf8_from 128 143 3 s'
          else false
      | S m => Nat.leb lo n && Nat.leb n hi && utf8_from 128 191 m s'
      end
  end.

Definition well_formed (s : string) : bool := utf8_from 128 191 0 s.

(** A field name: not empty, not starting with [$], with no dot and no NUL
    byte. *)
Fixpoint no_byte (b : nat) (s : string) : bool :=
  match s with
  | EmptyString => true
  | String c s' => negb (Nat.eqb (nat_of_ascii c) b) && no_byte b s'
  end.

Definition plain_key (k : string) : bool :=
  match k with
  | EmptyString => false
  | String c _ =>
      negb (Nat.eqb (nat_of_ascii c) 36) && no_byte 46 k && no_byte 0 k
      && well_formed k
  end.

(** Every integer fits in 64 bits, every text is well formed and every
    field name is plain. *)
Fixpoint plain (v : value) : bool :=
  match v with
  | VInt n => (-9223372036854775808 <=? n) && (n <? 9223372036854775808)
  | VStr t => well_formed t
  | VList l =>
      (fix all (l : list value) : bool :=
         match l with
         | [] => true
         | x :: l' => plain x && all l'
         end) l
  | VDict d =>
      (fix all (d : list (string * value)) : bool :=
         match d with
         | [] => true
         | (k, x) :: d' => plain_key k && plain x && all d'
         end) d
  | _ => true
  end.

(** The nesting of containers. *)
Fixpoint depth (v : value) : nat :=
  match v with
  | VList l =>
      S ((fix most (l : list value) : nat :=
            match l with
            | [] => O
            | x :: l' => Nat.max (depth x) (most l')
            end) l)
  | VDict d =>
      S ((fix most (d : list (string * value)) : nat :=
            match d with
            | [] => O
            | (_, x) :: d' => Nat.max (depth x) (most d')
            end) d)
  | _ => O
  end.

(** An upper bound of the size of the BSON encoding, in bytes: an element
    is a type byte, its name and a NUL byte, and its value; an array names
    its elements by their index. *)
Fixpoint weight (v : value) : Z :=
  match v with
  | VNone => 0
  | VBool _ => 1
  | VInt _ => 8
  | VFloat _ => 8
  | VStr s => 5 + Z.of_nat (String.length s)
  | VObjectId _ => 12
  | VList l =>
      5 + (fix sum (l : list value) : Z :=
             match l with
             | [] => 0
             | x :: l' => 13 + weight x + sum l'
             end) l
  | VDict d =>
      5 + (fix sum (d : list (string * value)) : Z :=
             match d with
             | [] => 0
             | (k, x) :: d' =>
                 2 + Z.of_nat (String.length k) + weight x + sum d'
             end) d
  end.

Definition storable (v : value) : bool :=
  plain v && Nat.leb (depth v) 64 && (weight v <=? 1000000).

(** [str(ObjectId)]. *)
Definition oid_str (o : N) : string := pretty o.

End Mongo.

(* ===================================================================== *)
(** ** The application                                                    *)
(* ===================================================================== *)

Module App.
Import Py Effects Mongo.

(** *** Request and response models *)

Module CheckoutRequest.
Record t : Type := {
  customer_name : string;
  customer_email : option string;
  customer_mobile : option string
}.
End CheckoutRequest.

Module CheckoutResponse.
Record t : Type := {
  order_id : string;
  payment_url : option string;
  message : string
}.

(** The constructor validates its arguments: [payment_url] is declared
    [Optional[str]], so it accepts [None] and strings. *)
Definition make (order_id : string) (payment_url : value) (message : string)
  : M t :=
  match payment_url with
  | VNone =>
      mret {| order_id := order_id; payment_url := None; message := message |}
  | VStr u =>
      mret {| order_id := order_id; payment_url := Some u; message := message |}
  | _ => raise (Exception "1 validation error for CheckoutResponse")
  end.
End CheckoutResponse.

(** *** Order models *)

(** Modelled from the spec: [schemas.OrderItem], which is not part of the
    sources; the specification lists its fields: product title, unit price,
    quantity, currency code. *)
Module OrderItem.
Record t : Type := {
  product_title : string;
  unit_price : Q;
  quantity : Z;
  currency : string
}.

Definition model_dump (i : t) : value :=
  VDict [("product_title", VStr (product_title i));
         ("unit_price", VFloat (unit_price i));
         ("quantity", VInt (quantity i));
         ("currency", VStr (currency i))].
End OrderItem.

(** Modelled from the spec: [schemas.Order], which is not part of the
    sources; the specification lists its fields: customer name, optional
    email and mobile, the items, total amount, currency code, status, and
    the optional invoice_id, invoice_url and payment_id, which [checkout]
    does not pass and are therefore [None] in a new order. *)
Module Order.
Record t : Type := {
  customer_name : string;
  customer_email : option string;
  customer_mobile : option string;
  items : list OrderItem.t;
  total_amount : Q;
  currency : string;
  status : string
}.

Definition model_dump (o : t) : dict :=
  [("customer_name", VStr (customer_name o));
   ("customer_email", of_opt (customer_email o));
   ("customer_mobile", of_opt (customer_mobile o));
   ("items", VList (map OrderItem.model_dump (items o)));
   ("total_amount", VFloat (total_amount o));
   ("currency", VStr (currency o));
   ("status", VStr (status o));
   ("invoice_id", VNone);
   ("invoice_url", VNone);
   ("payment_id", VNone)].
End Order.

(** Modelled from the spec: [database.create_document], which is not part of
    the sources.  The specification gives its contract as
    [create(collection, document) -> id], failing when the store is
    unavailable: the document is serialized and inserted, and the identifier
    the store assigned is returned as a string. *)
Definition create_document (collection_name : string) (data : Order.t)
  : M string :=
  inserted_id ← insert_one collection_name (Order.model_dump data);
  mret (oid_str inserted_id).

(** *** Python expressions that may raise *)

(** [v.get(k, dflt)]: only dictionaries have the method. *)
Definition attr_get (v : value) (k : string) (dflt : value) : M value :=
  match v with
  | VDict d => mret (get_default d k dflt)
  | _ => raise (Exception ("'" +:+ type_name v +:+ "' object has no attribute 'get'"))
  end.

(** [v[k]] for a string key. *)
Definition subscript (v : value) (k : string) : M value :=
  match v with
  | VDict d =>
      match lookup k d with
      | Some x => mret x
      | None => raise (Exception ("'" +:+ k +:+ "'"))
      end
  | VList _ => raise (Exception "list indices must be integers or slices, not str")
  | VStr _ => raise (Exception "string indices must be integers, not 'str'")
  | _ => raise (Exception ("'" +:+ type_name v +:+ "' object is not subscriptable"))
  end.

(** [os.getenv(name)] and [os.getenv(name, dflt)]. *)
Definition getenv (name : string) : M (option string) :=
  gets (fun w => environ w !! name).

Definition getenv_default (name dflt : string) : M string :=
  gets (fun w => default dflt (environ w !! name)).

(** [requests.post(url, json=payload, headers=headers, timeout=20)]: the
    request goes out, and the call raises or gives the response. *)
Definition requests_post (rq : http_request) : M (Z * body) := fun w =>
  let w' := with_posted (posted w ++ [rq])%list w in
  match gateway w rq with
  | RequestException err => (Raise (Exception err), w')
  | Response code b => (Ok (code, b), w')
  end.

(** [resp.json()]. *)
Definition resp_json (b : body) : M value :=
  match b with
  | NotJson err => raise (Exception err)
  | Json data => mret data
  end.

(** *** MyFatoorah integration helpers *)

Definition get_myfatoorah_headers : M (list (string * string)) :=
  token ← getenv "MYFATOORAH_TOKEN";
  match token with
  | Some tok =>
      if str_truthy tok then
        mret [("Accept", "application/json");
              ("Content-Type", "application/json");
              ("Authorization", "Bearer " +:+ tok)]
      else raise (HTTPException 500 "MyFatoorah token not configured")
  | None => raise (HTTPException 500 "MyFatoorah token not configured")
  end.

Definition myfatoorah_base_url : M string :=
  getenv_default "MYFATOORAH_BASE_URL" "https://apitest.myfatoorah.com".

(** The body of the second [try] of [create_myfatoorah_invoice]. *)
Definition send_payment `{Repr} (rq : http_request) : M dict :=
  resp ← requests_post rq;
  data ← resp_json (snd resp);
  is_success ←
    (if fst resp =? 200 then attr_get data "IsSuccess" VNone
     else mret (VBool false));
  if truthy is_success then
    data_Data ← subscript data "Data";
    invoice_id ← subscript data_Data "InvoiceId";
    data_Data' ← subscript data "Data";
    invoice_url ← attr_get data_Data' "InvoiceURL" VNone;
    mret [("configured", VBool true);
          ("invoice_id", VStr (str invoice_id));
          ("invoice_url", invoice_url)]
  else
    error ← attr_get data "Message" (VStr "MyFatoorah request failed");
    mret [("configured", VBool true);
          ("error", error);
          ("details", data)].

Definition create_myfatoorah_invoice `{Repr}
    (order_id : string) (order_total : Q) (customer_name : string)
    (customer_email customer_mobile : option string) : M dict :=
  hs ← try_except (h ← get_myfatoorah_headers; mret (inr h))
          (fun e => match e with
                    | HTTPException _ detail => mret (inl detail)
                    | _ => raise e
                    end);
  match hs with
  | inl detail =>
      mret [("configured", VBool false); ("error", VStr detail)]
  | inr headers =>
      base ← myfatoorah_base_url;
      callback_url ← getenv_default "PAYMENT_CALLBACK_URL"
                       "http://localhost:8000/api/payment/callback";
      error_url ← getenv_default "PAYMENT_ERROR_URL" callback_url;
      P ← gets PRODUCT;
      let payload :=
        [("CustomerName", VStr customer_name);
         ("NotificationOption", VStr "LNK");
         ("InvoiceValue", VFloat (round3 order_total));
         ("DisplayCurrencyIso", VStr (currency P));
         ("CustomerEmail", VStr (or_empty customer_email));
         ("CustomerMobile", VStr (or_empty customer_mobile));
         ("CallBackUrl", VStr callback_url);
         ("ErrorUrl", VStr error_url);
         ("Language", VStr "en");
         ("CustomerReference", VStr order_id);
         ("InvoiceItems",
          VList [VDict [("ItemName", VStr (title P));
                        ("Quantity", VInt 1);
                        ("UnitPrice", VFloat (round3 (price P)))]])] in
      let url := base +:+ "/v2/SendPayment" in
      try_except
        (send_payment {| url := url; json := payload; headers := headers;
                         timeout := 20 |})
        (fun e => mret [("configured", VBool true);
                        ("error", VStr (exn_str e))])
  end.

(** *** Checkout *)

(** The order [checkout] builds (lines 142-157 of the handler). *)
Definition build_order (P : product) (req : CheckoutRequest.t) : Order.t :=
  let item :=
    {| OrderItem.product_title := title P;
       OrderItem.unit_price := price P;
       OrderItem.quantity := 1;
       OrderItem.currency := currency P |} in
  {| Order.customer_name := CheckoutRequest.customer_name req;
     Order.customer_email := CheckoutRequest.customer_email req;
     Order.customer_mobile := CheckoutRequest.customer_mobile req;
     Order.items := [item];
     Order.total_amount :=
       (OrderItem.unit_price item * inject_Z (OrderItem.quantity item))%Q;
     Order.currency := currency P;
     Order.status := "pending" |}.

(** The statement under [# save invoice details]: the filter of the update
    is built from two nested [find_one] calls. *)
Definition save_invoice_details (payment_url : value) : M unit :=
  first ← find_one "order" [];
  first_id ← subscript first "_id";
  found ← find_one "order" [("_id", first_id)];
  update_one "order" [("_id", found)] [("invoice_url", payment_url)].

(** What [checkout] does once the gateway client has answered (from
    [payment_url = None] to the end of the handler). *)
Definition respond `{Repr} (order_id : string) (mf : dict)
  : M CheckoutResponse.t :=
  if truthy (get mf "configured") && truthy (get mf "invoice_url") then
    payment_url ← subscript (VDict mf) "invoice_url";
    _ ← try_except (save_invoice_details payment_url) (fun _ => mret tt);
    CheckoutResponse.make order_id payment_url "Proceed to payment"
  else if negb (truthy (get mf "configured")) then
    CheckoutResponse.make order_id VNone
      "Payment gateway not configured. Contact support."
  else
    CheckoutResponse.make order_id VNone
      ("Payment creation failed: "
         +:+ str (get_default mf "error" (VStr "Unknown error"))).

Definition checkout `{Repr} (req : CheckoutRequest.t) : M CheckoutResponse.t :=
  P ← gets PRODUCT;
  if negb (in_stock P) then raise (HTTPException 400 "Product out of stock")
  else
    let order := build_order P req in
    order_id ← create_document "order" order;
    mf ← create_myfatoorah_invoice order_id (Order.total_amount order)
           (CheckoutRequest.customer_name req)
           (CheckoutRequest.customer_email req)
           (CheckoutRequest.customer_mobile req);
    respond order_id mf.

(** *** Payment callback *)

(** The dictionary [update] the callback builds from the payload. *)
Definition callback_invoice_id `{Repr} (payload : dict) : value :=
  if negb (is_none (get payload "InvoiceId"))
  then VStr (str (get payload "InvoiceId"))
  else VNone.

Definition callback_update `{Repr} (payload : dict) : dict :=
  let invoice_id := callback_invoice_id payload in
  let payment_id := get payload "PaymentId" in
  let transaction_status :=
    or_ (get payload "TransactionStatus") (get payload "InvoiceStatus") in
  let update := [] in
  let update :=
    if truthy payment_id then set "payment_id" payment_id update
    else update in
  let update :=
    if truthy invoice_id then set "invoice_id" invoice_id update
    else update in
  let update :=
    if truthy transaction_status
    then set "status" (VStr (lower (str transaction_status))) update
    else update in
  update.

Definition payment_callback `{Repr} (payload : dict) : M dict :=
  try_except
    (let invoice_id := callback_invoice_id payload in
     let update := callback_update payload in
     _ ← (if dict_truthy update then
            _ ← (if truthy invoice_id
                 then update_one "order" [("invoice_id", invoice_id)] update
                 else mret tt);
            _ ← insert_one "order_callbacks" [("payload", VDict payload)];
            mret tt
          else mret tt);
     mret [("ok", VBool true)])
    (fun e => mret [("ok", VBool false); ("error", VStr (exn_str e))]).

(** *** The catalog and a test bed *)

(** The value of [PRODUCT] in the sources. *)
Definition PRODUCT_0 : product :=
  {| id := "kalrem-b6";
     title := "Kalerm B6 Home Coffee Machine";
     short := "Premium automatic coffee machine for home baristas";
     description :=
       "Make cafe-quality espresso, cappuccino, and latte at home with the Kalerm B6. "
       +:+ "One-touch drinks, integrated grinder, and sleek compact design.";
     price := 299;
     currency := "KWD";
     in_stock := true;
     images :=
       ["https://images.unsplash.com/photo-1517705008128-361805f42e86?q=80&w=1200&auto=format&fit=crop";
        "https://images.unsplash.com/photo-1498804103079-a6351b050096?q=80&w=1200&auto=format&fit=crop"];
     specs :=
       ["One-touch espresso, cappuccino, latte";
        "Integrated conical burr grinder";
        "Adjustable milk frother";
        "Compact, modern design"] |}.

End App.

(* ===================================================================== *)
(** ** Vocabulary of the properties                                       *)
(* ===================================================================== *)

Module Props.
Import Py Effects Mongo App.

(** The three outcomes of the gateway client, with the dictionary each of
    the four [return] statements of [create_myfatoorah_invoice] builds. *)
Inductive InvoiceResult : Type :=
  | NotConfigured (reason : string)
  | Succeeded (invoice_id : string) (invoice_url : value)
  | Failed (reason : value) (raw_details : option value).

Definition to_dict (r : InvoiceResult) : dict :=
  match r with
  | NotConfigured reason =>
      [("configured", VBool false); ("error", VStr reason)]
  | Succeeded invoice_id invoice_url =>
      [("configured", VBool true); ("invoice_id", VStr invoice_id);
       ("invoice_url", invoice_url)]
  | Failed reason (Some details) =>
      [("configured", VBool true); ("error", reason); ("details", details)]
  | Failed reason None =>
      [("configured", VBool true); ("error", reason)]
  end.

Definition is_succeeded (r : InvoiceResult) : bool :=
  match r with
  | Succeeded _ _ => true
  | _ => false
  end.

Definition is_failed (r : InvoiceResult) : bool :=
  match r with
  | Failed _ _ => true
  | _ => false
  end.

Definition is_not_configured (r : InvoiceResult) : bool :=
  match r with
  | NotConfigured _ => true
  | _ => false
  end.

(** The gateway token is configured: the variable is set and not empty. *)
Definition token_configured (w : world) : bool :=
  match environ w !! "MYFATOORAH_TOKEN" with
  | Some tok => str_truthy tok
  | None => false
  end.

(** The answers of the gateway the client takes for an accepted invoice:
    status 200 and a JSON object with a true [IsSuccess] whose [Data] is an
    object holding an [InvoiceId]. *)
Definition accepted (res : http_result) : bool :=
  match res with
  | Response code (Json (VDict data)) =>
      (code =? 200) && truthy (get data "IsSuccess") &&
      match lookup "Data" data with
      | Some (VDict fields) =>
          match lookup "InvoiceId" fields with
          | Some _ => true
          | None => false
          end
      | _ => false
      end
  | _ => false
  end.

(** The answers with status 200 and a true success flag. *)
Definition success_status_and_flag (res : http_result) : bool :=
  match res with
  | Response code (Json (VDict data)) =>
      (code =? 200) && truthy (get data "IsSuccess")
  | _ => false
  end.

(** The answers that are a JSON object the client rejects: another status
    than 200, or a false [IsSuccess]. *)
Definition rejected (res : http_result) : option dict :=
  match res with
  | Response code (Json (VDict data)) =>
      if (code =? 200) && truthy (get data "IsSuccess") then None
      else Some data
  | _ => None
  end.

(** The sum of unit price times quantity over the items of an order. *)
Definition order_sum (items : list OrderItem.t) : Q :=
  fold_right
    (fun i acc => (OrderItem.unit_price i * inject_Z (OrderItem.quantity i) + acc)%Q)
    0%Q items.

(** The invariants of an order of the product [P]. *)
Definition order_ok (P : product) (o : Order.t) : Prop :=
  Order.status o = "pending" /\
  (Order.total_amount o == order_sum (Order.items o))%Q /\
  Order.currency o = currency P /\
  Forall (fun i => OrderItem.currency i = Order.currency o) (Order.items o).

(** The document [checkout] stores for a request, under the next ObjectId. *)
Definition new_order (w : world) (req : CheckoutRequest.t) : stored :=
  {| doc_id := next_id (db w);
     doc_fields := Order.model_dump (build_order (PRODUCT w) req) |}.

(** The database once that document is stored, and nothing else changed. *)
Definition db_with_order (w : world) (req : CheckoutRequest.t) : database :=
  {| collections :=
       <["order" := (coll (db w) "order" ++ [new_order w req])%list]>
         (collections (db w));
     next_id := N.succ (next_id (db w)) |}.

(** The world once [checkout] has stored the order: the driver consumed one
    entry of its script. *)
Definition persisted (w : world) (req : CheckoutRequest.t) : world :=
  with_db (db_with_order w req) (with_faults (tl (faults w)) w).

(** The call to the gateway client [checkout] makes once the order is
    stored, with its result. *)
Definition gateway_call `{Repr} (w : world) (req : CheckoutRequest.t)
  : result dict * world :=
  create_myfatoorah_invoice (oid_str (next_id (db w)))
    (Order.total_amount (build_order (PRODUCT w) req))
    (CheckoutRequest.customer_name req)
    (CheckoutRequest.customer_email req)
    (CheckoutRequest.customer_mobile req)
    (persisted w req).

(** The driver lets the next operation through. *)
Definition next_op_ok (w : world) : bool :=
  match faults w with
  | Some _ :: _ => false
  | _ => true
  end.

(** Two worlds that differ at most in the driver's script: same database,
    same catalog, same environment, same gateway, same requests sent. *)
Definition same_data (w w' : world) : Prop :=
  db w' = db w /\ PRODUCT w' = PRODUCT w /\ environ w' = environ w /\
  gateway w' = gateway w /\ posted w' = posted w.

(** What [find_one] returns: a document or [None]. *)
Definition doc_or_none (v : value) : bool :=
  match v with
  | VNone | VDict _ => true
  | _ => false
  end.

(** The fields of a callback payload the handler uses. *)
Definition has_payment_id (payload : dict) : bool :=
  truthy (get payload "PaymentId").

Definition has_invoice_id `{Repr} (payload : dict) : bool :=
  negb (is_none (get payload "InvoiceId")) &&
  str_truthy (str (get payload "InvoiceId")).

Definition status_source (payload : dict) : value :=
  if truthy (get payload "TransactionStatus")
  then get payload "TransactionStatus"
  else get payload "InvoiceStatus".

Definition has_status (payload : dict) : bool :=
  truthy (get payload "TransactionStatus") ||
  truthy (get payload "InvoiceStatus").

Definition recognised `{Repr} (payload : dict) : bool :=
  has_payment_id payload || has_invoice_id payload || has_status payload.

(** The audit record of a payload, stored under the ObjectId [o]. *)
Definition audit_record (o : N) (payload : dict) : stored :=
  {| doc_id := o; doc_fields := [("payload", VDict payload)] |}.

(** The value of field [k] of the matched order after the callback, from
    its value [old] before: the three fields are replaced when the payload
    has them, every other field is kept. *)
Definition patched_field `{Repr} (payload : dict) (k : string)
    (old : option value) : option value :=
  if String.eqb k "payment_id" then
    if has_payment_id payload then Some (get payload "PaymentId") else old
  else if String.eqb k "invoice_id" then
    if has_invoice_id payload
    then Some (VStr (str (get payload "InvoiceId"))) else old
  else if String.eqb k "status" then
    if has_status payload
    then Some (VStr (lower (str (status_source payload)))) else old
  else old.

(** The filter of the callback's update. *)
Definition invoice_filter `{Repr} (payload : dict) : dict :=
  [("invoice_id", VStr (str (get payload "InvoiceId")))].

(** The database after a callback that the driver lets through: the first
    order the filter matches is patched when the payload has an invoice
    identifier, and the payload is recorded when it has any of the three
    fields. *)
Definition callback_db `{Repr} (payload : dict) (d : database) : database :=
  if recognised payload then
    snd (db_insert "order_callbacks" [("payload", VDict payload)]
           (if has_invoice_id payload
            then snd (db_update "order" (invoice_filter payload)
                        (callback_update payload) d)
            else d))
  else d.

(** The order carries the invoice identifier [s], as a string. *)
Definition invoice_is (s : string) (sd : stored) : bool :=
  match lookup "invoice_id" (doc_fields sd) with
  | Some (VStr t) => String.eqb t s
  | _ => false
  end.

(** The [invoice_id] of the order is not an array: it is a string, [None]
    or missing in the orders this program writes. *)
Definition scalar_invoice (sd : stored) : bool :=
  match lookup "invoice_id" (doc_fields sd) with
  | Some (VList _) => false
  | _ => true
  end.

(** Every order in the store is a document within the limits of the store,
    with room for the fields a callback sets. *)
Definition orders_storable (w : world) : bool :=
  forallb (fun sd => storable (VDict (doc_fields sd))) (coll (db w) "order").

End Props.

(* ===================================================================== *)
(** ** Test bed                                                           *)
(* ===================================================================== *)

Module Bed.
Import Py Effects Mongo App Props.

(** Lower-casing of a text whose letters are those of Latin-1: the
    letters A-Z, and the capital letters U+00C0 to U+00DE (the bytes C3 80
    to C3 9E, the multiplication sign C3 97 apart), which move up by 32. *)
Fixpoint latin1_lower (after_c3 : bool) (s : string) : string :=
  match s with
  | EmptyString => EmptyString
  | String c s' =>
      let n := nat_of_ascii c in
      if after_c3
      then String (if Nat.leb 128 n && Nat.leb n 158 && negb (Nat.eqb n 151)
                   then ascii_of_nat (n + 32) else c)
                  (latin1_lower false s')
      else String (lower_ascii c) (latin1_lower (Nat.eqb n 195) s')
  end.

(** An interpreter for the examples: it shows a container as the name of
    its type, and knows the case of the letters of Latin-1, which are the
    letters of the texts of the examples. *)
Definition repr0 : Repr :=
  {| repr := fun v => "<" +:+ type_name v +:+ ">";
     unicode_lower := latin1_lower false |}.

Definition ann : CheckoutRequest.t :=
  {| CheckoutRequest.customer_name := "Ann";
     CheckoutRequest.customer_email := Some "ann@example.com";
     CheckoutRequest.customer_mobile := None |}.

Definition empty_db : database := {| collections := ∅; next_id := 0 |}.

(** A gateway that accepts every invoice. *)
Definition gw_accept : http_request -> http_result := fun _ =>
  Response 200
    (Json (VDict [("IsSuccess", VBool true);
                  ("Data", VDict [("InvoiceId", VInt 77);
                                  ("InvoiceURL", VStr "https://pay.example/77")])])).

(** A gateway that accepts the invoice and gives no payment link. *)
Definition gw_no_url : http_request -> http_result := fun _ =>
  Response 200
    (Json (VDict [("IsSuccess", VBool true);
                  ("Data", VDict [("InvoiceId", VInt 77)])])).

(** A gateway that reports success and sends no invoice. *)
Definition gw_no_data : http_request -> http_result := fun _ =>
  Response 200 (Json (VDict [("IsSuccess", VBool true)])).

(** A gateway that rejects the invoice with an empty message. *)
Definition gw_reject_blank : http_request -> http_result := fun _ =>
  Response 400 (Json (VDict [("IsSuccess", VBool false); ("Message", VStr "")])).

(** A gateway that rejects the invoice with a message. *)
Definition gw_reject : http_request -> http_result := fun _ =>
  Response 400
    (Json (VDict [("IsSuccess", VBool false); ("Message", VStr "Invalid token")])).

Definition shop (P : product) (token : option string)
    (gw : http_request -> http_result) (d : database)
    (fs : list (option string)) : world :=
  {| PRODUCT := P;
     environ := match token with
                | Some tok => {["MYFATOORAH_TOKEN" := tok]}
                | None => ∅
                end;
     db := d; faults := fs; gateway := gw; posted := [] |}.

Definition sold_out : product :=
  {| id := id PRODUCT_0; title := title PRODUCT_0; short := short PRODUCT_0;
     description := description PRODUCT_0; price := price PRODUCT_0;
     currency := currency PRODUCT_0; in_stock := false;
     images := images PRODUCT_0; specs := specs PRODUCT_0 |}.

(** A database with two orders: the first awaits invoice X, the second
    invoice Y. *)
Definition two_orders : database :=
  {| collections :=
       {["order" :=
           [ {| doc_id := 0;
                doc_fields := [("customer_name", VStr "Ann");
                               ("status", VStr "pending");
                               ("invoice_id", VStr "X")] |};
             {| doc_id := 1;
                doc_fields := [("customer_name", VStr "Bob");
                               ("status", VStr "pending");
                               ("invoice_id", VStr "Y")] |} ]]};
     next_id := 2 |}.

Definition paid_X : dict :=
  [("InvoiceId", VStr "X"); ("TransactionStatus", VStr "Paid")].

(** The worlds of the examples. *)
Definition w_sold_out : world :=
  shop sold_out (Some "tok") gw_accept empty_db [].

Definition w_unconfigured : world :=
  shop PRODUCT_0 None gw_accept empty_db [].

Definition w_accept : world :=
  shop PRODUCT_0 (Some "tok") gw_accept empty_db [].

(** The insertion of the order goes through, the next call to the driver
    raises. *)
Definition w_accept_flaky : world :=
  shop PRODUCT_0 (Some "tok") gw_accept two_orders
    [None; Some "connection reset"].

Definition w_no_url : world :=
  shop PRODUCT_0 (Some "tok") gw_no_url empty_db [].

Definition w_no_data : world :=
  shop PRODUCT_0 (Some "tok") gw_no_data empty_db [].

Definition w_reject_blank : world :=
  shop PRODUCT_0 (Some "tok") gw_reject_blank empty_db [].

Definition w_reject : world :=
  shop PRODUCT_0 (Some "tok") gw_reject empty_db [].

Definition w_orders : world :=
  shop PRODUCT_0 (Some "tok") gw_accept two_orders [].

(** A payload with a status that is not ASCII. *)
Definition paid_accented : dict :=
  [("InvoiceId", VStr "X"); ("TransactionStatus", VStr "PAYÉ")].

(** A payload whose payment identifier does not fit in 64 bits. *)
Definition paid_huge : dict :=
  [("InvoiceId", VStr "X"); ("PaymentId", VInt (2 ^ 70))].

(** The error of the driver on such an integer. *)
Definition overflow_error : string :=
  "MongoDB can only handle up to 8-byte ints".

(** The two orders, and a driver that raises that error at its next two
    calls: what two deliveries of [paid_huge] meet. *)
Definition w_overflow : world :=
  shop PRODUCT_0 (Some "tok") gw_accept two_orders
    [Some overflow_error; Some overflow_error].

End Bed.
(* ===================================================================== *)
(** ** More vocabulary and more worlds                                    *)
(* ===================================================================== *)

Module More.
Import Py Effects Mongo App Props Bed.

(** [isinstance(v, dict)]. *)
Definition is_dict (v : value) : bool :=
  match v with
  | VDict _ => true
  | _ => false
  end.

(** The token variable is set to the empty string. *)
Definition w_blank_token : world :=
  shop PRODUCT_0 (Some "") gw_accept empty_db [].

(** A gateway whose answer is a JSON array. *)
Definition gw_array : http_request -> http_result := fun _ =>
  Response 200 (Json (VList [VStr "maintenance"])).

Definition w_array : world :=
  shop PRODUCT_0 (Some "tok") gw_array empty_db [].

(** A gateway that cannot be reached. *)
Definition gw_down : http_request -> http_result := fun _ =>
  RequestException "connection timed out".

Definition w_gw_down : world :=
  shop PRODUCT_0 (Some "tok") gw_down empty_db [].

(** The store refuses the first operation. *)
Definition w_store_down : world :=
  shop PRODUCT_0 (Some "tok") gw_accept two_orders [Some "store unavailable"].

(** The store lets one operation through and refuses the next. *)
Definition w_store_flaky : world :=
  shop PRODUCT_0 (Some "tok") gw_accept two_orders
    [None; Some "store unavailable"].

(** A payload for an invoice no order awaits. *)
Definition paid_Z : dict :=
  [("InvoiceId", VStr "Z"); ("TransactionStatus", VStr "Paid")].

(** The text has none of the letters A-Z. *)
Definition is_capital (c : ascii) : bool :=
  let n := nat_of_ascii c in Nat.leb 65 n && Nat.leb n 90.

Fixpoint no_capital (s : string) : bool :=
  match s with
  | EmptyString => true
  | String c s' => negb (is_capital c) && no_capital s'
  end.

(** What the callback may change between two worlds: only the two
    collections [order] and [order_callbacks] and the script of the driver;
    in [order] no document is created or deleted, in [order_callbacks]
    documents are only appended. *)
Definition callback_keeps (w w' : world) : Prop :=
  PRODUCT w' = PRODUCT w /\ environ w' = environ w /\
  gateway w' = gateway w /\ posted w' = posted w /\
  (forall name, name <> "order" -> name <> "order_callbacks" ->
     collections (db w') !! name = collections (db w) !! name) /\
  map doc_id (coll (db w') "order") = map doc_id (coll (db w) "order") /\
  exists added,
    coll (db w') "order_callbacks"
      = (coll (db w) "order_callbacks" ++ added)%list.

End More.

(* ===================================================================== *)
(** ** The diagnostic endpoint                                            *)
(* ===================================================================== *)

Module Diag.
Import Py Effects Mongo App.

(** The database object the [database] module exports: an object with or
    without a [name] attribute, and the names of the collections as the
    driver lists them, in the driver's order. *)
Record db_handle : Type := {
  name : option value;
  collection_names : list string
}.

(** What [from database import db as _db] gives inside [test_database]:
    an [ImportError], another exception, or the value of [db], which is
    [None] when the database is not initialised. *)
Inductive db_import : Type :=
  | ImportError (msg : string)
  | ImportRaises (msg : string)
  | Imported (handle : option db_handle).

(** [_db.list_collection_names()]: one call to the driver. *)
Definition list_collection_names (_db : db_handle) : M (list string) :=
  driver (fun d => (collection_names _db, d)).

(** A byte that continues a UTF-8 character: 10xxxxxx. *)
Definition is_continuation (c : ascii) : bool :=
  let n := nat_of_ascii c in
  (Nat.leb 128 n && Nat.ltb n 192)%bool.

(** [s[:n]]: the first [n] characters of a text, each with the bytes that
    continue it. *)
Fixpoint take_chars (n : nat) (s : string) : string :=
  match s with
  | EmptyString => EmptyString
  | String c s' =>
      if is_continuation c then String c (take_chars n s')
      else match n with
           | O => EmptyString
           | S n' => String c (take_chars n' s')
           end
  end.

(** [s[:50]]. *)
Definition slice50 (s : string) : string := take_chars 50 s.

(** [bool(os.getenv(name))]. *)
Definition env_set (w : world) (name : string) : bool :=
  match environ w !! name with
  | Some s => str_truthy s
  | None => false
  end.

Definition test_database (imp : db_import) : M dict :=
  let response :=
    [("backend", VStr "✅ Running");
     ("database", VStr "❌ Not Available");
     ("database_url", VNone);
     ("database_name", VNone);
     ("connection_status", VStr "Not Connected");
     ("collections", VList [])] in
  response ←
    match imp with
    | Imported (Some _db) =>
        let response := set "database" (VStr "✅ Available") response in
        let response :=
          set "database_url" (VStr "✅ Configured") response in
        let response :=
          set "database_name"
            (match name _db with
             | Some n => n
             | None => VStr "✅ Connected"
             end) response in
        let response :=
          set "connection_status" (VStr "Connected") response in
        try_except
          (collections ← list_collection_names _db;
           let response :=
             set "collections" (VList (map VStr (take 10 collections)))
               response in
           mret (set "database" (VStr "✅ Connected & Working") response))
          (fun e =>
             mret (set "database"
                     (VStr ("⚠️  Connected but Error: "
                              +:+ slice50 (exn_str e)))
                     response))
    | Imported None =>
        mret (set "database" (VStr "⚠️  Available but not initialized")
                response)
    | ImportError _ =>
        mret (set "database"
                (VStr "❌ Database module not found (run enable-database first)")
                response)
    | ImportRaises msg =>
        mret (set "database" (VStr ("❌ Error: " +:+ slice50 msg)) response)
    end;
  url ← getenv "DATABASE_URL";
  let response :=
    set "database_url"
      (VStr (if str_truthy (default "" url) then "✅ Set" else "❌ Not Set"))
      response in
  db_name ← getenv "DATABASE_NAME";
  mret (set "database_name"
          (VStr (if str_truthy (default "" db_name)
                 then "✅ Set" else "❌ Not Set"))
          response).

(** A database object that lists twelve collections. *)
Definition twelve_collections : db_handle :=
  {| name := Some (VStr "shop");
     collection_names :=
       map (fun n : N => "c" +:+ pretty n)
           [0; 1; 2; 3; 4; 5; 6; 7; 8; 9; 10; 11]%N |}.

End Diag.

(* ===================================================================== *)
(** ** Dictionaries                                                       *)
(* ===================================================================== *)

Section DictFacts.
Import Py.

Lemma lookup_set_eq (k : string) (v : value) (d : dict) :
  lookup k (set k v d) = Some v.
Proof.
  induction d as [|[k' v'] d IH]; simpl.
  - now rewrite String.eqb_refl.
  - destruct (String.eqb k k') eqn:E; simpl; rewrite E; auto.
Qed.

Lemma lookup_set_ne (k k' : string) (v : value) (d : dict) :
  k' <> k -> lookup k' (set k v d) = lookup k' d.
Proof.
  intros Hne. induction d as [|[k0 v0] d IH]; simpl.
  - apply String.eqb_neq in Hne. now rewrite Hne.
  - destruct (String.eqb k k0) eqn:E; simpl.
    + apply String.eqb_eq in E. subst k0.
      apply String.eqb_neq in Hne. now rewrite Hne.
    + now rewrite IH.
Qed.

Lemma lookup_set (k k' : string) (v : value) (d : dict) :
  lookup k' (set k v d) = if String.eqb k' k then Some v else lookup k' d.
Proof.
  destruct (String.eqb k' k) eqn:E.
  - apply String.eqb_eq in E. subst. apply lookup_set_eq.
  - apply String.eqb_neq in E. now apply lookup_set_ne.
Qed.

(** Assigning the value a key already has changes nothing. *)
Lemma set_id (k : string) (v : value) (d : dict) :
  lookup k d = Some v -> set k v d = d.
Proof.
  induction d as [|[k' v'] d IH]; simpl; [discriminate|].
  destruct (String.eqb k k') eqn:E.
  - intros [= ->]. reflexivity.
  - intros Hl. now rewrite IH.
Qed.

End DictFacts.

(* ===================================================================== *)
(** ** The update operator and the driver calls                           *)
(* ===================================================================== *)

Section MongoFacts.
Import Py Effects Mongo Props.

Lemma lookup_apply_set_notin (u d : dict) (k : string) :
  Forall (fun kv => fst kv <> k) u ->
  lookup k (apply_set u d) = lookup k d.
Proof.
  unfold apply_set. revert d.
  induction u as [|[k0 v0] u IH]; intros d Hu; simpl; [reflexivity|].
  inversion Hu as [|? ? Hk Hu']; subst. simpl in Hk.
  rewrite IH by assumption. apply lookup_set_ne. congruence.
Qed.

Lemma lookup_apply_set_in (u d : dict) (k : string) (v : value) :
  NoDup (map fst u) -> In (k, v) u ->
  lookup k (apply_set u d) = Some v.
Proof.
  unfold apply_set. revert d.
  induction u as [|[k0 v0] u IH]; intros d Hnd Hin; simpl in *; [contradiction|].
  apply NoDup_cons in Hnd as [Hk0 Hnd].
  destruct Hin as [[= -> ->]|Hin].
  - fold (apply_set u (set k v d)).
    rewrite lookup_apply_set_notin.
    + apply lookup_set_eq.
    + apply Forall_forall. intros [k1 v1] H1 Heq. simpl in Heq. subst k1.
      apply Hk0. apply list_elem_of_fmap. exists (k, v1).
      split; [reflexivity|assumption].
  - now apply IH.
Qed.

Lemma apply_set_id (u d : dict) :
  (forall k v, In (k, v) u -> lookup k d = Some v) ->
  apply_set u d = d.
Proof.
  unfold apply_set.
  induction u as [|[k0 v0] u IH]; intros Hu; simpl; [reflexivity|].
  rewrite set_id by (apply Hu; now left).
  apply IH. intros k v Hin. apply Hu. now right.
Qed.

(** Applying the same [$set] twice is applying it once. *)
Lemma apply_set_idem (u d : dict) :
  NoDup (map fst u) -> apply_set u (apply_set u d) = apply_set u d.
Proof.
  intros Hnd. apply apply_set_id. intros k v Hin.
  now apply lookup_apply_set_in.
Qed.

Lemma patch_idem (u : dict) (sd : stored) :
  NoDup (map fst u) -> patch u (patch u sd) = patch u sd.
Proof.
  intros Hnd. unfold patch. simpl. now rewrite apply_set_idem.
Qed.

Lemma update_first_no_match (f u : dict) (c : list stored) :
  Forall (fun sd => matches f sd = false) c -> update_first f u c = c.
Proof.
  induction 1 as [|sd c Hsd _ IH]; simpl; [reflexivity|].
  now rewrite Hsd, IH.
Qed.

Lemma update_first_ids (f u : dict) (c : list stored) :
  map doc_id (update_first f u c) = map doc_id c.
Proof.
  induction c as [|sd c IH]; simpl; [reflexivity|].
  destruct (matches f sd); simpl; [reflexivity|]. now rewrite IH.
Qed.

Lemma update_first_split (f u : dict) (pre post : list stored) (sd : stored) :
  Forall (fun x => matches f x = false) pre -> matches f sd = true ->
  update_first f u (pre ++ sd :: post) = (pre ++ patch u sd :: post)%list.
Proof.
  intros Hpre Hsd. induction Hpre as [|x pre Hx _ IH]; simpl.
  - now rewrite Hsd.
  - now rewrite Hx, IH.
Qed.

Lemma find_first_split (f : dict) (c : list stored) (sd : stored) :
  find_first f c = Some sd ->
  exists pre post,
    c = (pre ++ sd :: post)%list /\
    Forall (fun x => matches f x = false) pre /\ matches f sd = true.
Proof.
  induction c as [|x c IH]; simpl; [discriminate|].
  destruct (matches f x) eqn:Hx.
  - intros [= ->]. exists [], c. auto.
  - intros Hc. destruct (IH Hc) as (pre & post & -> & Hpre & Hsd).
    exists (x :: pre), post. auto.
Qed.

Lemma find_first_prefix (f : dict) (pre post : list stored) (sd : stored) :
  Forall (fun x => matches f x = false) pre -> matches f sd = true ->
  find_first f (pre ++ sd :: post) = Some sd.
Proof.
  intros Hpre Hsd. induction Hpre as [|x pre Hx _ IH]; simpl.
  - now rewrite Hsd.
  - now rewrite Hx.
Qed.

(** No stored document has a document or [None] for [_id]: every [_id] is
    an ObjectId. *)
Lemma matches_id_doc (v : value) (sd : stored) :
  doc_or_none v = true -> matches [("_id", v)] sd = false.
Proof. destruct v; try discriminate; reflexivity. Qed.

Lemma db_update_id_doc (name : string) (v : value) (u : dict) (d : database) :
  doc_or_none v = true -> snd (db_update name [("_id", v)] u d) = d.
Proof.
  intros Hv. unfold db_update. simpl. destruct d as [cs n]. simpl. f_equal.
  apply alter_id. intros c _. apply update_first_no_match.
  apply Forall_forall. intros sd _. now apply matches_id_doc.
Qed.

Lemma db_find_doc (name : string) (f : dict) (d : database) :
  doc_or_none (fst (db_find name f d)) = true.
Proof. unfold db_find. simpl. now destruct (find_first f (coll d name)). Qed.

End MongoFacts.

(* ===================================================================== *)
(** ** The monad and the driver                                           *)
(* ===================================================================== *)

Section EffectFacts.
Import Py Effects Mongo Props.

Lemma with_db_same (w : world) : with_db (db w) w = w.
Proof. destruct w; reflexivity. Qed.

Lemma driver_healthy {A} (op : database -> A * database) (w : world) :
  faults w = [] ->
  driver op w = (Ok (fst (op (db w))), with_db (snd (op (db w))) w).
Proof. intros Hf. unfold driver. now rewrite Hf. Qed.

#[global] Instance same_data_refl : Reflexive same_data.
Proof. intros w. unfold same_data. auto. Qed.

#[global] Instance same_data_trans : Transitive same_data.
Proof.
  intros w1 w2 w3 (?&?&?&?&?) (?&?&?&?&?). unfold same_data.
  repeat split; congruence.
Qed.

(** Sequencing: a relation between worlds that each step keeps, the
    continuation for the values the first step can return. *)
Lemma bind_keeps {A B} (R : relation world) `{!Transitive R}
    (Q : A -> Prop) (m : M A) (k : A -> M B) (w : world) :
  R w (snd (m w)) ->
  (forall a, fst (m w) = Ok a -> Q a) ->
  (forall a w', Q a -> R w' (snd (k a w'))) ->
  R w (snd ((m ≫= k) w)).
Proof.
  intros Hm HQ Hk. unfold mbind, M_bind.
  destruct (m w) as [[a|e] w1]; simpl in *; [|assumption].
  etransitivity; [exact Hm|]. apply Hk. now apply HQ.
Qed.

Lemma try_except_keeps {A} (R : relation world) `{!Transitive R}
    (m : M A) (h : exn -> M A) (w : world) :
  R w (snd (m w)) ->
  (forall e w', R w' (snd (h e w'))) ->
  R w (snd (try_except m h w)).
Proof.
  intros Hm Hh. unfold try_except.
  destruct (m w) as [[a|e] w1]; simpl in *; [assumption|].
  etransitivity; [exact Hm|]. apply Hh.
Qed.

(** A query changes nothing but the script, and returns a document or
    [None]. *)
Lemma find_one_keeps (name : string) (f : dict) (w : world) :
  same_data w (snd (find_one name f w)).
Proof.
  unfold find_one, driver, same_data.
  destruct (faults w) as [|[msg|] fs]; simpl; auto.
Qed.

Lemma find_one_doc (name : string) (f : dict) (w : world) (v : value) :
  fst (find_one name f w) = Ok v -> doc_or_none v = true.
Proof.
  unfold find_one, driver.
  destruct (faults w) as [|[msg|] fs]; simpl; try discriminate;
    intros [= <-]; apply db_find_doc.
Qed.

Lemma update_one_id_keeps (name : string) (v : value) (u : dict) (w : world) :
  doc_or_none v = true ->
  same_data w (snd (update_one name [("_id", v)] u w)).
Proof.
  intros Hv. unfold update_one, driver, same_data.
  destruct (faults w) as [|[msg|] fs];
    rewrite ?db_update_id_doc by assumption; simpl; auto.
Qed.

End EffectFacts.

Ltac run :=
  unfold mbind, Effects.M_bind, mret, Effects.M_ret, Effects.raise,
    Effects.gets, Effects.try_except in *;
  simpl in *.

(* ===================================================================== *)
(** ** The gateway client                                                 *)
(* ===================================================================== *)

Section GatewayFacts.
Import Py Effects Mongo App Props.
Context `{Repr}.

Lemma headers_missing (w : world) :
  token_configured w = false ->
  get_myfatoorah_headers w =
    (Raise (HTTPException 500 "MyFatoorah token not configured"), w).
Proof.
  unfold token_configured, get_myfatoorah_headers, getenv. run.
  destruct (environ w !! "MYFATOORAH_TOKEN") as [tok|]; [|reflexivity].
  now intros ->.
Qed.

Lemma headers_configured (w : world) :
  token_configured w = true ->
  exists hs, get_myfatoorah_headers w = (Ok hs, w).
Proof.
  unfold token_configured, get_myfatoorah_headers, getenv. run.
  destruct (environ w !! "MYFATOORAH_TOKEN") as [tok|]; [|discriminate].
  intros ->. eauto.
Qed.

(** The call to the gateway: one request goes out; the answer is mapped to
    a success dictionary, a failure dictionary, or an exception. *)
Lemma send_payment_spec (rq : http_request) (w : world) :
  exists r,
    send_payment rq w = (r, with_posted (posted w ++ [rq])%list w) /\
    match r with
    | Ok mf =>
        (accepted (gateway w rq) = true /\
         exists i u, mf = to_dict (Succeeded i u)) \/
        (accepted (gateway w rq) = false /\
         exists data,
           rejected (gateway w rq) = Some data /\
           mf = to_dict (Failed (get_default data "Message"
                                   (VStr "MyFatoorah request failed"))
                                (Some (VDict data))))
    | Raise e =>
        accepted (gateway w rq) = false /\
        rejected (gateway w rq) = None /\
        (forall c d, e <> HTTPException c d) /\
        (forall err, gateway w rq = RequestException err -> e = Exception err) /\
        (forall code err,
           gateway w rq = Response code (NotJson err) -> e = Exception err)
    end.
Proof.
  unfold send_payment, requests_post, resp_json, attr_get, subscript,
    accepted, rejected.
  run.
  destruct (gateway w rq) as [err|code [err|data]]; simpl.
  - eexists; split; [reflexivity|]. simpl. repeat split; try discriminate.
    now intros ? [= ->].
  - eexists; split; [reflexivity|]. simpl. repeat split; try discriminate.
    now intros ? ? [= _ ->].
  - destruct (code =? 200) eqn:Hc; simpl.
    + destruct data; simpl;
        try (eexists; split; [reflexivity|]; simpl; repeat split; discriminate).
      destruct (truthy (get d "IsSuccess")) eqn:Hs; unfold get in Hs |- *.
      * unfold get_default in *.
        destruct (lookup "IsSuccess" d) as [s|] eqn:Hl; simpl in *;
          [|discriminate].
        rewrite Hs.
        destruct (lookup "Data" d) as [[| | | | | |l|fs]|] eqn:HD; simpl;
          try (eexists; split; [reflexivity|]; simpl; repeat split; discriminate).
        destruct (lookup "InvoiceId" fs) as [iid|] eqn:Hi; simpl.
        -- eexists; split; [reflexivity|]. simpl. left. split; [reflexivity|].
           eauto.
        -- eexists; split; [reflexivity|]. simpl. repeat split; discriminate.
      * unfold get_default in *.
        destruct (lookup "IsSuccess" d) as [s|] eqn:Hl; simpl in *.
        -- rewrite Hs. eexists; split; [reflexivity|]. simpl. right.
           split; [reflexivity|]. eauto.
        -- eexists; split; [reflexivity|]. simpl. right.
           split; [reflexivity|]. eauto.
    + destruct data; simpl;
        try (eexists; split; [reflexivity|]; simpl; repeat split; discriminate).
      eexists; split; [reflexivity|]. simpl. right. split; [reflexivity|]. eauto.
Qed.

Lemma invoice_not_configured (order_id : string) (total : Q) (name : string)
    (email mobile : option string) (w : world) :
  token_configured w = false ->
  create_myfatoorah_invoice order_id total name email mobile w =
    (Ok (to_dict (NotConfigured "MyFatoorah token not configured")), w).
Proof.
  intros Ht. unfold create_myfatoorah_invoice. run.
  now rewrite (headers_missing w Ht).
Qed.

Lemma invoice_configured (order_id : string) (total : Q) (name : string)
    (email mobile : option string) (w : world) :
  token_configured w = true ->
  exists r rq,
    create_myfatoorah_invoice order_id total name email mobile w =
      (Ok (to_dict r), with_posted (posted w ++ [rq])%list w) /\
    is_not_configured r = false /\
    is_succeeded r = accepted (gateway w rq) /\
    (forall data,
       rejected (gateway w rq) = Some data ->
       r = Failed (get_default data "Message" (VStr "MyFatoorah request failed"))
                  (Some (VDict data))) /\
    (forall err,
       gateway w rq = RequestException err -> r = Failed (VStr err) None) /\
    (forall code err,
       gateway w rq = Response code (NotJson err) ->
       r = Failed (VStr err) None).
Proof.
  intros Ht. destruct (headers_configured w Ht) as [hs Hhs].
  unfold create_myfatoorah_invoice, myfatoorah_base_url, getenv_default. run.
  rewrite Hhs. simpl.
  match goal with
  | |- context [send_payment ?rq w] =>
      destruct (send_payment_spec rq w) as (r & Hrun & Hr);
      rewrite Hrun; clear Hrun;
      destruct r as [mf|e]; simpl;
        [destruct Hr as [[Hacc (i & u & ->)]|[Hacc (data & Hrej & ->)]]
        |destruct Hr as (Hacc & Hrej & Hhttp & Herr & Hjson)]
  end.
  - eexists (Succeeded i u), _. split; [reflexivity|].
    rewrite Hacc. repeat split; try reflexivity.
    + intros data Hd. unfold accepted, rejected in *.
      repeat case_match; simplify_eq.
    + intros err He. rewrite He in Hacc. discriminate.
    + intros code err He. rewrite He in Hacc. discriminate.
  - eexists (Failed _ (Some (VDict data))), _. split; [reflexivity|].
    rewrite Hacc. repeat split; try reflexivity.
    + intros data' Hd. rewrite Hrej in Hd. now injection Hd as ->.
    + intros err He. rewrite He in Hrej. discriminate.
    + intros code err He. rewrite He in Hrej. discriminate.
  - eexists (Failed (VStr (exn_str e)) None), _. split; [reflexivity|].
    rewrite Hacc. repeat split; try reflexivity.
    + intros data Hd. rewrite Hrej in Hd. discriminate.
    + intros err He. now rewrite (Herr err He).
    + intros code err He. now rewrite (Hjson code err He).
Qed.

End GatewayFacts.

(* ===================================================================== *)
(** ** Checkout                                                           *)
(* ===================================================================== *)

Section CheckoutFacts.
Import Py Effects Mongo App Props.
Context `{Repr}.

(** The statement that should save the invoice link changes no document,
    whatever the driver does: its filter compares [_id] with a whole
    document (or with [None]). *)
Lemma save_invoice_details_keeps (u : value) (w : world) :
  same_data w (snd (save_invoice_details u w)).
Proof.
  unfold save_invoice_details.
  apply (bind_keeps same_data (fun _ => True)); [apply find_one_keeps|auto|].
  intros first w1 _.
  apply (bind_keeps same_data (fun _ => True)); [|auto|].
  { unfold subscript. repeat case_match; reflexivity. }
  intros first_id w2 _.
  apply (bind_keeps same_data (fun v => doc_or_none v = true));
    [apply find_one_keeps|apply find_one_doc|].
  intros found w3 Hfound. now apply update_one_id_keeps.
Qed.

Lemma respond_not_configured (oid reason : string) (w : world) :
  respond oid (to_dict (NotConfigured reason)) w =
    (Ok {| CheckoutResponse.order_id := oid;
           CheckoutResponse.payment_url := None;
           CheckoutResponse.message :=
             "Payment gateway not configured. Contact support." |}, w).
Proof. reflexivity. Qed.

Lemma respond_failed (oid : string) (reason : value) (det : option value)
    (w : world) :
  respond oid (to_dict (Failed reason det)) w =
    (Ok {| CheckoutResponse.order_id := oid;
           CheckoutResponse.payment_url := None;
           CheckoutResponse.message :=
             "Payment creation failed: " +:+ str reason |}, w).
Proof. destruct det; reflexivity. Qed.

Lemma respond_succeeded_no_url (oid i : string) (u : value) (w : world) :
  truthy u = false ->
  respond oid (to_dict (Succeeded i u)) w =
    (Ok {| CheckoutResponse.order_id := oid;
           CheckoutResponse.payment_url := None;
           CheckoutResponse.message :=
             "Payment creation failed: Unknown error" |}, w).
Proof.
  intros Hu. unfold respond, get. simpl. now rewrite Hu.
Qed.

Lemma respond_succeeded (oid i url : string) (w : world) :
  url <> "" ->
  exists w',
    respond oid (to_dict (Succeeded i (VStr url))) w =
      (Ok {| CheckoutResponse.order_id := oid;
             CheckoutResponse.payment_url := Some url;
             CheckoutResponse.message := "Proceed to payment" |}, w') /\
    same_data w w'.
Proof.
  intros Hu. apply String.eqb_neq in Hu.
  unfold respond, get. simpl. rewrite Hu. simpl. run.
  pose proof (save_invoice_details_keeps (VStr url) w) as Hk.
  destruct (save_invoice_details (VStr url) w) as [[[]|e] w1]; simpl in *;
    eauto.
Qed.

(** Whatever the gateway client returned, answering changes no data. *)
Lemma respond_keeps (oid : string) (mf : dict) (w : world) :
  same_data w (snd (respond oid mf w)).
Proof.
  unfold respond.
  destruct (truthy (get mf "configured") && truthy (get mf "invoice_url")).
  - apply (bind_keeps same_data (fun _ => True)); [|auto|].
    { unfold subscript. repeat case_match; reflexivity. }
    intros u w1 _.
    apply (bind_keeps same_data (fun _ => True)); [|auto|].
    { apply (try_except_keeps same_data); [apply save_invoice_details_keeps|].
      intros; reflexivity. }
    intros _ w2 _. unfold CheckoutResponse.make.
    repeat case_match; reflexivity.
  - destruct (negb (truthy (get mf "configured"))); reflexivity.
Qed.

Lemma respond_order_id (oid : string) (mf : dict) (w : world)
    (resp : CheckoutResponse.t) :
  fst (respond oid mf w) = Ok resp -> CheckoutResponse.order_id resp = oid.
Proof.
  unfold respond, CheckoutResponse.make, subscript. run.
  repeat (case_match; simpl in *; try discriminate);
    intros [= <-]; reflexivity.
Qed.

Lemma create_document_order (w : world) (req : CheckoutRequest.t) :
  next_op_ok w = true ->
  create_document "order" (build_order (PRODUCT w) req) w =
    (Ok (oid_str (next_id (db w))), persisted w req).
Proof.
  unfold next_op_ok, create_document, insert_one, driver, persisted. run.
  destruct w as [P env d fs gw ps]. simpl.
  destruct fs as [|[msg|] fs]; simpl; [reflexivity|discriminate|reflexivity].
Qed.

Lemma create_document_fails (w : world) (name : string) (data : Order.t) :
  next_op_ok w = false ->
  exists e,
    create_document name data w = (Raise e, with_faults (tl (faults w)) w).
Proof.
  unfold next_op_ok, create_document, insert_one, driver. run.
  destruct (faults w) as [|[msg|] fs]; simpl; try discriminate; eauto.
Qed.

(** The three ways [checkout] goes. *)
Lemma checkout_sold_out (req : CheckoutRequest.t) (w : world) :
  in_stock (PRODUCT w) = false ->
  checkout req w = (Raise (HTTPException 400 "Product out of stock"), w).
Proof. intros Hs. unfold checkout. run. now rewrite Hs. Qed.

Lemma checkout_store_down (req : CheckoutRequest.t) (w : world) :
  in_stock (PRODUCT w) = true -> next_op_ok w = false ->
  exists e, checkout req w = (Raise e, with_faults (tl (faults w)) w).
Proof.
  intros Hs Hf. unfold checkout.
  destruct (create_document_fails w "order" (build_order (PRODUCT w) req) Hf)
    as [e He].
  exists e. run. rewrite Hs. simpl. now rewrite He.
Qed.

Lemma checkout_stored (req : CheckoutRequest.t) (w : world) :
  in_stock (PRODUCT w) = true -> next_op_ok w = true ->
  checkout req w =
    match gateway_call w req with
    | (Ok mf, w2) => respond (oid_str (next_id (db w))) mf w2
    | (Raise e, w2) => (Raise e, w2)
    end.
Proof.
  intros Hs Hf. unfold checkout, gateway_call. run. rewrite Hs. simpl.
  now rewrite (create_document_order w req Hf).
Qed.

(** The gateway client always returns one of its three results, and
    changes no data but the list of requests sent. *)
Lemma invoice_total (order_id : string) (total : Q) (name : string)
    (email mobile : option string) (w : world) :
  exists r w',
    create_myfatoorah_invoice order_id total name email mobile w =
      (Ok (to_dict r), w') /\
    db w' = db w /\ faults w' = faults w /\ PRODUCT w' = PRODUCT w /\
    environ w' = environ w /\ gateway w' = gateway w /\
    is_not_configured r = negb (token_configured w) /\
    (if token_configured w then exists rq, posted w' = (posted w ++ [rq])%list
     else w' = w).
Proof.
  destruct (token_configured w) eqn:Ht.
  - destruct (invoice_configured order_id total name email mobile w Ht)
      as (r & rq & Hrun & Hnc & _).
    exists r, (with_posted (posted w ++ [rq])%list w).
    rewrite Hrun, Hnc. simpl. eauto 10.
  - exists (NotConfigured "MyFatoorah token not configured"), w.
    rewrite invoice_not_configured by assumption. simpl. auto 10.
Qed.

(** The database after [checkout]: the order is added when the product is
    in stock and the driver lets the insertion through, and nothing else
    ever changes. *)
Lemma checkout_db (req : CheckoutRequest.t) (w : world) :
  db (snd (checkout req w)) =
    if in_stock (PRODUCT w) && next_op_ok w then db_with_order w req
    else db w.
Proof.
  destruct (in_stock (PRODUCT w)) eqn:Hs; simpl.
  - destruct (next_op_ok w) eqn:Hf.
    + rewrite checkout_stored by assumption. unfold gateway_call.
      destruct (invoice_total (oid_str (next_id (db w)))
                  (Order.total_amount (build_order (PRODUCT w) req))
                  (CheckoutRequest.customer_name req)
                  (CheckoutRequest.customer_email req)
                  (CheckoutRequest.customer_mobile req) (persisted w req))
        as (r & w2 & -> & Hdb & _).
      destruct (respond_keeps (oid_str (next_id (db w))) (to_dict r) w2)
        as (-> & _).
      rewrite Hdb. reflexivity.
    + destruct (checkout_store_down req w Hs Hf) as [e ->]. reflexivity.
  - now rewrite checkout_sold_out.
Qed.

End CheckoutFacts.

(* ===================================================================== *)
(** ** The payment callback                                               *)
(* ===================================================================== *)

Section CallbackFacts.
Import Py Effects Mongo App Props.
Context `{Repr}.

Lemma callback_invoice_id_truthy (payload : dict) :
  truthy (callback_invoice_id payload) = has_invoice_id payload.
Proof.
  unfold callback_invoice_id, has_invoice_id, str_truthy.
  destruct (is_none (get payload "InvoiceId")); reflexivity.
Qed.

Lemma callback_invoice_id_value (payload : dict) :
  has_invoice_id payload = true ->
  callback_invoice_id payload = VStr (str (get payload "InvoiceId")).
Proof.
  unfold callback_invoice_id, has_invoice_id.
  destruct (is_none (get payload "InvoiceId")); [discriminate|reflexivity].
Qed.

Lemma status_truthy (payload : dict) :
  truthy (or_ (get payload "TransactionStatus") (get payload "InvoiceStatus"))
  = has_status payload.
Proof.
  unfold or_, has_status.
  destruct (truthy (get payload "TransactionStatus")) eqn:E; simpl; auto.
Qed.

Lemma callback_update_truthy (payload : dict) :
  dict_truthy (callback_update payload) = recognised payload.
Proof.
  unfold callback_update, recognised, has_payment_id.
  rewrite callback_invoice_id_truthy, status_truthy.
  destruct (truthy (get payload "PaymentId")),
    (has_invoice_id payload), (has_status payload); reflexivity.
Qed.

Lemma callback_update_nodup (payload : dict) :
  NoDup (map fst (callback_update payload)).
Proof.
  unfold callback_update.
  destruct (truthy (get payload "PaymentId")),
    (truthy (callback_invoice_id payload)),
    (truthy (or_ (get payload "TransactionStatus")
                 (get payload "InvoiceStatus")));
    simpl; apply (bool_decide_unpack _); vm_compute; exact I.
Qed.

(** The patch of the callback, field by field. *)
Lemma callback_update_lookup (payload d : dict) (k : string) :
  lookup k (apply_set (callback_update payload) d)
  = patched_field payload k (lookup k d).
Proof.
  unfold patched_field, has_payment_id.
  rewrite <- status_truthy, <- callback_invoice_id_truthy.
  unfold callback_update, status_source, or_.
  destruct (truthy (get payload "PaymentId")) eqn:Hp,
    (truthy (callback_invoice_id payload)) eqn:Hi,
    (truthy (if truthy (get payload "TransactionStatus")
             then get payload "TransactionStatus"
             else get payload "InvoiceStatus")) eqn:Hs;
    unfold apply_set; simpl; rewrite ?lookup_set;
    try rewrite (callback_invoice_id_value payload)
      by (now rewrite <- callback_invoice_id_truthy);
    destruct (String.eqb k "payment_id") eqn:E1;
    destruct (String.eqb k "invoice_id") eqn:E2;
    destruct (String.eqb k "status") eqn:E3;
    try reflexivity;
    apply String.eqb_eq in E1 || apply String.eqb_eq in E2
      || apply String.eqb_eq in E3;
    subst; discriminate.
Qed.

Lemma coll_db_update_eq (name : string) (f u : dict) (d : database) :
  coll (snd (db_update name f u d)) name = update_first f u (coll d name).
Proof.
  unfold coll, db_update. simpl. rewrite lookup_alter_eq.
  now destruct (collections d !! name).
Qed.

Lemma coll_db_update_ne (name name' : string) (f u : dict) (d : database) :
  name <> name' ->
  coll (snd (db_update name f u d)) name' = coll d name'.
Proof.
  intros Hne. unfold coll, db_update. simpl.
  now rewrite lookup_alter_ne.
Qed.

Lemma coll_db_insert_eq (name : string) (doc : dict) (d : database) :
  coll (snd (db_insert name doc d)) name
  = (coll d name ++ [{| doc_id := next_id d; doc_fields := doc |}])%list.
Proof. unfold coll at 1, db_insert. simpl. now rewrite lookup_insert_eq. Qed.

Lemma coll_db_insert_ne (name name' : string) (doc : dict) (d : database) :
  name <> name' ->
  coll (snd (db_insert name doc d)) name' = coll d name'.
Proof.
  intros Hne. unfold coll, db_insert. simpl. now rewrite lookup_insert_ne.
Qed.

(** The callback on a healthy database. *)
Lemma payment_callback_healthy (payload : dict) (w : world) :
  faults w = [] ->
  payment_callback payload w =
    (Ok [("ok", VBool true)], with_db (callback_db payload (db w)) w).
Proof.
  intros Hf. unfold payment_callback, callback_db. run.
  rewrite callback_update_truthy, callback_invoice_id_truthy.
  destruct (recognised payload); simpl; [|now rewrite with_db_same].
  destruct (has_invoice_id payload) eqn:Hi; simpl.
  - rewrite (callback_invoice_id_value payload Hi).
    unfold update_one, insert_one. rewrite driver_healthy by assumption.
    rewrite driver_healthy by assumption. simpl.
    destruct w; reflexivity.
  - unfold insert_one. rewrite driver_healthy by assumption. reflexivity.
Qed.

(** The callback never raises, whatever the driver does. *)
Lemma payment_callback_total (payload : dict) (w : world) :
  exists r, fst (payment_callback payload w) = Ok r.
Proof.
  unfold payment_callback, try_except.
  match goal with |- context [match ?m w with _ => _ end] =>
    destruct (m w) as [[a|e] w1] end; simpl; eauto.
Qed.

(** The orders after a callback. *)
Lemma callback_db_orders (payload : dict) (d : database) :
  coll (callback_db payload d) "order" =
    if has_invoice_id payload
    then update_first (invoice_filter payload) (callback_update payload)
           (coll d "order")
    else coll d "order".
Proof.
  unfold callback_db. destruct (recognised payload) eqn:Hr.
  - rewrite coll_db_insert_ne by discriminate.
    destruct (has_invoice_id payload); [apply coll_db_update_eq|reflexivity].
  - unfold recognised in Hr.
    destruct (has_invoice_id payload); [|reflexivity].
    rewrite orb_true_r in Hr. discriminate.
Qed.

(** The audit log after a callback. *)
Lemma callback_db_audit (payload : dict) (d : database) :
  coll (callback_db payload d) "order_callbacks" =
    (coll d "order_callbacks" ++
     if recognised payload then [audit_record (next_id d) payload] else [])%list.
Proof.
  unfold callback_db.
  destruct (recognised payload); [|now rewrite app_nil_r].
  rewrite coll_db_insert_eq. unfold audit_record.
  destruct (has_invoice_id payload); [|reflexivity].
  now rewrite coll_db_update_ne by discriminate.
Qed.

Lemma callback_db_next_id (payload : dict) (d : database) :
  next_id (callback_db payload d) =
    if recognised payload then N.succ (next_id d) else next_id d.
Proof.
  unfold callback_db.
  destruct (recognised payload), (has_invoice_id payload); reflexivity.
Qed.

(** A patched order still carries the invoice identifier of the payload. *)
Lemma patched_still_matches (payload : dict) (sd : stored) :
  has_invoice_id payload = true ->
  matches (invoice_filter payload) (patch (callback_update payload) sd) = true.
Proof.
  intros Hi. unfold matches, invoice_filter, as_dict, patch. simpl.
  rewrite callback_update_lookup. unfold patched_field. simpl.
  rewrite Hi. simpl. now rewrite String.eqb_refl.
Qed.

Lemma update_first_idem (f u : dict) (c : list stored) :
  NoDup (map fst u) ->
  (forall sd, matches f sd = true -> matches f (patch u sd) = true) ->
  update_first f u (update_first f u c) = update_first f u c.
Proof.
  intros Hnd Hkeep. induction c as [|sd c IH]; simpl; [reflexivity|].
  destruct (matches f sd) eqn:Hm; simpl.
  - now rewrite (Hkeep sd Hm), patch_idem.
  - now rewrite Hm, IH.
Qed.

(** Delivering a payload twice leaves the orders as one delivery does. *)
Lemma callback_db_orders_idem (payload : dict) (d : database) :
  coll (callback_db payload (callback_db payload d)) "order"
  = coll (callback_db payload d) "order".
Proof.
  rewrite !callback_db_orders.
  destruct (has_invoice_id payload) eqn:Hi; [|reflexivity].
  apply update_first_idem; [apply callback_update_nodup|].
  intros sd _. now apply patched_still_matches.
Qed.

(** In a store whose orders hold no array as [invoice_id], the filter of the
    callback matches the orders whose [invoice_id] is the string of the
    payload's [InvoiceId]. *)
Lemma matches_invoice_is (payload : dict) (sd : stored) :
  scalar_invoice sd = true ->
  matches (invoice_filter payload) sd
    = invoice_is (str (get payload "InvoiceId")) sd.
Proof.
  unfold scalar_invoice, invoice_is, matches, invoice_filter, as_dict.
  simpl. destruct (lookup "invoice_id" (doc_fields sd)) as [[]|]; simpl;
    intros Hs; rewrite ?andb_true_r; try reflexivity; discriminate.
Qed.

Lemma scalar_no_match (payload : dict) (c : list stored) :
  forallb scalar_invoice c = true ->
  forallb (fun sd => negb (invoice_is (str (get payload "InvoiceId")) sd)) c
    = true ->
  Forall (fun sd => matches (invoice_filter payload) sd = false) c.
Proof.
  induction c as [|sd c IH]; cbn [forallb]; [constructor|].
  intros [Hs Hc]%andb_true_iff [Hn Hr]%andb_true_iff.
  constructor; [|now apply IH].
  cbv beta. rewrite matches_invoice_is by assumption.
  now apply negb_true_iff.
Qed.
End CallbackFacts.

(* ===================================================================== *)
(** ** The properties of the specification: checkout                      *)
(* ===================================================================== *)

Import Py Effects Mongo App Props Bed.

(** C7. When the stock flag of the product is false, [checkout] is rejected
    with the out-of-stock client error (status 400) and the world is left
    exactly as it was: no order document is stored, no other write reaches
    the store, no request goes to the gateway. *)
Theorem checkout_out_of_stock `{Repr} (req : CheckoutRequest.t) (w : world) :
  in_stock (PRODUCT w) = false ->
  checkout req w = (Raise (HTTPException 400 "Product out of stock"), w).
Proof. apply checkout_sold_out. Qed.

Lemma checkout_out_of_stock_witness :
  in_stock (PRODUCT w_sold_out) = false /\
  checkout (H := repr0) ann w_sold_out =
    (Raise (HTTPException 400 "Product out of stock"), w_sold_out).
Proof.
  split; [reflexivity|].
  apply (checkout_out_of_stock (H := repr0) ann w_sold_out). reflexivity.
Defined.

(** C6. When the gateway token is absent from the configuration, the
    gateway client returns the not-configured result and leaves the world
    as it was (no request is sent); and [checkout], once the order is
    stored, answers with no payment link and the message
    "Payment gateway not configured. Contact support.", having sent no
    request. *)
Theorem checkout_not_configured `{Repr} (req : CheckoutRequest.t) (w : world) :
  environ w !! "MYFATOORAH_TOKEN" = None ->
  (forall order_id total name email mobile,
     create_myfatoorah_invoice order_id total name email mobile w =
       (Ok (to_dict (NotConfigured "MyFatoorah token not configured")), w)) /\
  (in_stock (PRODUCT w) = true -> next_op_ok w = true ->
   checkout req w =
     (Ok {| CheckoutResponse.order_id := oid_str (next_id (db w));
            CheckoutResponse.payment_url := None;
            CheckoutResponse.message :=
              "Payment gateway not configured. Contact support." |},
      persisted w req) /\
   posted (persisted w req) = posted w).
Proof.
  intros Htok.
  assert (Hw : forall w', environ w' = environ w -> token_configured w' = false).
  { intros w' He. unfold token_configured. now rewrite He, Htok. }
  split.
  - intros. apply invoice_not_configured. now apply Hw.
  - intros Hs Hf. split; [|reflexivity].
    rewrite checkout_stored by assumption. unfold gateway_call.
    rewrite invoice_not_configured by (now apply Hw).
    apply respond_not_configured.
Qed.

Lemma checkout_not_configured_witness :
  environ w_unconfigured !! "MYFATOORAH_TOKEN" = None /\
  checkout (H := repr0) ann w_unconfigured =
    (Ok {| CheckoutResponse.order_id := "0";
           CheckoutResponse.payment_url := None;
           CheckoutResponse.message :=
             "Payment gateway not configured. Contact support." |},
     persisted w_unconfigured ann) /\
  posted (persisted w_unconfigured ann) = [].
Proof.
  split; [reflexivity|].
  exact (proj2 (checkout_not_configured (H := repr0) ann w_unconfigured
                  eq_refl) eq_refl eq_refl).
Defined.

Lemma coll_db_with_order (w : world) (req : CheckoutRequest.t) :
  coll (db_with_order w req) "order"
  = (coll (db w) "order" ++ [new_order w req])%list.
Proof. unfold coll at 1, db_with_order. simpl. now rewrite lookup_insert_eq. Qed.

Lemma build_order_ok (P : product) (req : CheckoutRequest.t) :
  order_ok P (build_order P req).
Proof.
  unfold order_ok, build_order, order_sum. simpl.
  repeat split; try reflexivity.
  - now rewrite Qplus_0_r.
  - repeat constructor.
Qed.

Lemma checkout_response_id `{Repr} (req : CheckoutRequest.t) (w : world)
    (resp : CheckoutResponse.t) :
  fst (checkout req w) = Ok resp ->
  in_stock (PRODUCT w) && next_op_ok w = true /\
  CheckoutResponse.order_id resp = oid_str (next_id (db w)).
Proof.
  destruct (in_stock (PRODUCT w)) eqn:Hs.
  - destruct (next_op_ok w) eqn:Hf.
    + rewrite checkout_stored by assumption.
      destruct (gateway_call w req) as [[mf|e] w2]; simpl; [|discriminate].
      intros Hr. split; [reflexivity|]. now apply respond_order_id in Hr.
    + destruct (checkout_store_down req w Hs Hf) as [e ->]. discriminate.
  - rewrite checkout_sold_out by assumption. discriminate.
Qed.

(** C8. Whatever the request and the world, [checkout] either stores no
    order and returns no response (out of stock, or the store refuses the
    insertion), or appends exactly one order to the collection, under the
    identifier every response carries as [order_id].  That order carries
    the name, email and mobile of the request; its items are exactly one
    item, with the title, the price and the currency of the product and
    quantity 1; its total is the price of the product times 1, which is the
    sum of unit price times quantity over its items; its status is
    "pending" and its currency that of the product, which is also the
    currency of each of its items. *)
Theorem checkout_order_invariants `{Repr} (req : CheckoutRequest.t)
    (w : world) :
  let r := fst (checkout req w) in
  let w' := snd (checkout req w) in
  (in_stock (PRODUCT w) && next_op_ok w = false /\
   coll (db w') "order" = coll (db w) "order" /\
   forall resp, r <> Ok resp) \/
  (in_stock (PRODUCT w) && next_op_ok w = true /\
   exists o,
     coll (db w') "order" =
       (coll (db w) "order" ++
        [{| doc_id := next_id (db w); doc_fields := Order.model_dump o |}])%list /\
     Order.customer_name o = CheckoutRequest.customer_name req /\
     Order.customer_email o = CheckoutRequest.customer_email req /\
     Order.customer_mobile o = CheckoutRequest.customer_mobile req /\
     Order.items o =
       [{| OrderItem.product_title := title (PRODUCT w);
           OrderItem.unit_price := price (PRODUCT w);
           OrderItem.quantity := 1;
           OrderItem.currency := currency (PRODUCT w) |}] /\
     Order.total_amount o = (price (PRODUCT w) * inject_Z 1)%Q /\
     (Order.total_amount o == price (PRODUCT w))%Q /\
     (Order.total_amount o == order_sum (Order.items o))%Q /\
     Order.status o = "pending" /\
     Order.currency o = currency (PRODUCT w) /\
     Forall (fun i => OrderItem.currency i = Order.currency o)
       (Order.items o) /\
     forall resp,
       r = Ok resp ->
       CheckoutResponse.order_id resp = oid_str (next_id (db w))).
Proof.
  simpl. pose proof (checkout_db req w) as Hdb.
  destruct (in_stock (PRODUCT w) && next_op_ok w) eqn:Hb.
  - right. split; [reflexivity|]. exists (build_order (PRODUCT w) req).
    rewrite Hdb, coll_db_with_order. split; [reflexivity|].
    destruct (build_order_ok (PRODUCT w) req) as (Hst & Hsum & Hcur & Hall).
    do 5 (split; [reflexivity|]).
    split; [simpl; apply Qmult_1_r|].
    split; [exact Hsum|]. split; [exact Hst|]. split; [exact Hcur|].
    split; [exact Hall|].
    intros resp Hr. now apply checkout_response_id in Hr.
  - left. split; [reflexivity|]. rewrite Hdb. split; [reflexivity|].
    intros resp Hr. apply checkout_response_id in Hr as [Hr _]. congruence.
Qed.

(** The order of Ann for the coffee machine, as stored: one machine at 299
    KWD. *)
Example checkout_order_stored :
  coll (db (snd (checkout (H := repr0) ann w_unconfigured))) "order" =
    [{| doc_id := 0;
        doc_fields :=
          [("customer_name", VStr "Ann");
           ("customer_email", VStr "ann@example.com");
           ("customer_mobile", VNone);
           ("items",
            VList [VDict [("product_title",
                           VStr "Kalerm B6 Home Coffee Machine");
                          ("unit_price", VFloat 299);
                          ("quantity", VInt 1);
                          ("currency", VStr "KWD")]]);
           ("total_amount", VFloat 299);
           ("currency", VStr "KWD");
           ("status", VStr "pending");
           ("invoice_id", VNone);
           ("invoice_url", VNone);
           ("payment_id", VNone)] |}].
Proof. vm_compute. reflexivity. Qed.

(** C10. For every checkout whose gateway result is not-configured or
    failed, the database afterwards is the database before with the new
    order appended to the order collection and nothing else changed: every
    other collection is as it was, and the order is as created, with status
    "pending" and no invoice_url, invoice_id or payment_id. *)
Theorem checkout_without_invoice_frame `{Repr} (req : CheckoutRequest.t)
    (w : world) (r : InvoiceResult) :
  in_stock (PRODUCT w) = true -> next_op_ok w = true ->
  fst (gateway_call w req) = Ok (to_dict r) ->
  is_not_configured r || is_failed r = true ->
  let w' := snd (checkout req w) in
  let fields := doc_fields (new_order w req) in
  db w' = db_with_order w req /\
  coll (db w') "order" = (coll (db w) "order" ++ [new_order w req])%list /\
  (forall name, name <> "order" ->
     collections (db w') !! name = collections (db w) !! name) /\
  get fields "status" = VStr "pending" /\
  get fields "invoice_url" = VNone /\
  get fields "invoice_id" = VNone /\
  get fields "payment_id" = VNone.
Proof.
  intros Hs Hf _ _. simpl. rewrite checkout_db, Hs, Hf. simpl.
  split; [reflexivity|]. split; [apply coll_db_with_order|].
  split; [|repeat split].
  intros name Hne. now rewrite lookup_insert_ne.
Qed.

Lemma checkout_without_invoice_frame_witness :
  in_stock (PRODUCT w_reject) = true /\ next_op_ok w_reject = true /\
  fst (gateway_call (H := repr0) w_reject ann) =
    Ok (to_dict (Failed (VStr "Invalid token")
                   (Some (VDict [("IsSuccess", VBool false);
                                 ("Message", VStr "Invalid token")])))) /\
  db (snd (checkout (H := repr0) ann w_reject)) = db_with_order w_reject ann /\
  coll (db (snd (checkout (H := repr0) ann w_reject))) "order" =
    [new_order w_reject ann].
Proof.
  pose proof (checkout_without_invoice_frame (H := repr0) ann w_reject
                (Failed (VStr "Invalid token")
                   (Some (VDict [("IsSuccess", VBool false);
                                 ("Message", VStr "Invalid token")])))
                eq_refl eq_refl eq_refl eq_refl) as (Hdb & Hc & _).
  do 3 (split; [reflexivity|]). split; [exact Hdb|exact Hc].
Defined.

(** C3 does not hold as stated: the gateway client can return its success
    result without a payment link (the gateway accepted the invoice and sent
    no [InvoiceURL]); [checkout] then answers with no payment link and a
    failure message. *)
Lemma checkout_succeeded_without_link :
  fst (gateway_call (H := repr0) w_no_url ann) =
    Ok (to_dict (Succeeded "77" VNone)) /\
  fst (checkout (H := repr0) ann w_no_url) =
    Ok {| CheckoutResponse.order_id := "0";
          CheckoutResponse.payment_url := None;
          CheckoutResponse.message :=
            "Payment creation failed: Unknown error" |}.
Proof. split; reflexivity. Qed.

(** C3, amended. For every checkout where the gateway client result is the
    success result with a non-empty payment link, the response carries that
    link as [payment_url] and the message "Proceed to payment", whatever the
    driver does to the operations that follow the insertion of the order:
    whether the advisory update goes through or raises. *)
Theorem checkout_proceed_to_payment `{Repr} (req : CheckoutRequest.t)
    (w : world) (invoice_id url : string) :
  in_stock (PRODUCT w) = true -> next_op_ok w = true ->
  fst (gateway_call w req) = Ok (to_dict (Succeeded invoice_id (VStr url))) ->
  str_truthy url = true ->
  fst (checkout req w) =
    Ok {| CheckoutResponse.order_id := oid_str (next_id (db w));
          CheckoutResponse.payment_url := Some url;
          CheckoutResponse.message := "Proceed to payment" |}.
Proof.
  intros Hs Hf Hgw Hu. rewrite checkout_stored by assumption.
  destruct (gateway_call w req) as [r w2]. simpl in Hgw. subst r.
  cbv beta iota.
  assert (Hne : url <> "").
  { unfold str_truthy in Hu. apply negb_true_iff in Hu.
    now apply String.eqb_neq in Hu. }
  destruct (respond_succeeded (oid_str (next_id (db w))) invoice_id url w2 Hne)
    as (w3 & Hr & _).
  unfold to_dict in Hr. now rewrite Hr.
Qed.

(** The insertion goes through and the advisory update raises. *)
Lemma checkout_proceed_to_payment_witness :
  in_stock (PRODUCT w_accept_flaky) = true /\
  next_op_ok w_accept_flaky = true /\
  fst (gateway_call (H := repr0) w_accept_flaky ann) =
    Ok (to_dict (Succeeded "77" (VStr "https://pay.example/77"))) /\
  fst (save_invoice_details (VStr "https://pay.example/77")
         (persisted w_accept_flaky ann)) =
    Raise (Exception "connection reset") /\
  fst (checkout (H := repr0) ann w_accept_flaky) =
    Ok {| CheckoutResponse.order_id := "2";
          CheckoutResponse.payment_url := Some "https://pay.example/77";
          CheckoutResponse.message := "Proceed to payment" |}.
Proof.
  do 4 (split; [reflexivity|]).
  apply (checkout_proceed_to_payment (H := repr0) ann w_accept_flaky "77"
           "https://pay.example/77"); reflexivity.
Defined.

(** The same with a healthy driver: the advisory update goes through. *)
Example checkout_proceed_to_payment_healthy :
  fst (checkout (H := repr0) ann w_accept) =
    Ok {| CheckoutResponse.order_id := "0";
          CheckoutResponse.payment_url := Some "https://pay.example/77";
          CheckoutResponse.message := "Proceed to payment" |}.
Proof. reflexivity. Qed.

(** C2. At the failing input (a checkout the gateway accepts, on an empty
    store and on a store that already holds orders), the response carries
    the payment link and the persisted order, whose identifier is the
    [order_id] of the response, still has no [invoice_url]: the update
    under [# save invoice details] filters [_id] by a whole document and
    matches nothing. *)
Theorem checkout_invoice_link_not_saved :
  (fst (checkout (H := repr0) ann w_accept) =
     Ok {| CheckoutResponse.order_id := "0";
           CheckoutResponse.payment_url := Some "https://pay.example/77";
           CheckoutResponse.message := "Proceed to payment" |} /\
   coll (db (snd (checkout (H := repr0) ann w_accept))) "order" =
     [new_order w_accept ann] /\
   oid_str (doc_id (new_order w_accept ann)) = "0" /\
   get (doc_fields (new_order w_accept ann)) "invoice_url" = VNone) /\
  (fst (checkout (H := repr0) ann w_orders) =
     Ok {| CheckoutResponse.order_id := "2";
           CheckoutResponse.payment_url := Some "https://pay.example/77";
           CheckoutResponse.message := "Proceed to payment" |} /\
   coll (db (snd (checkout (H := repr0) ann w_orders))) "order" =
     (coll (db w_orders) "order" ++ [new_order w_orders ann])%list /\
   oid_str (doc_id (new_order w_orders ann)) = "2" /\
   get (doc_fields (new_order w_orders ann)) "invoice_url" = VNone).
Proof. repeat split; reflexivity. Qed.

(* ===================================================================== *)
(** ** The properties of the specification: the gateway client            *)
(* ===================================================================== *)

(** C4 does not hold as stated.  First, a response with status 200 and a
    true success flag that carries no invoice gives the failure result, not
    the success result.  Second, a rejection whose message is the empty
    string gives the failure result with an empty reason. *)
Lemma gateway_client_counterexample :
  (forall rq, success_status_and_flag (gateway w_no_data rq) = true) /\
  fst (create_myfatoorah_invoice (H := repr0) "0" 299%Q "Ann" None None
         w_no_data) =
    Ok (to_dict (Failed (VStr "'Data'") None)) /\
  fst (create_myfatoorah_invoice (H := repr0) "0" 299%Q "Ann" None None
         w_reject_blank) =
    Ok (to_dict (Failed (VStr "")
                   (Some (VDict [("IsSuccess", VBool false);
                                 ("Message", VStr "")])))).
Proof. repeat split; reflexivity. Qed.

Lemma accepted_success_status_and_flag (res : http_result) :
  accepted res = true -> success_status_and_flag res = true.
Proof.
  unfold accepted, success_status_and_flag.
  destruct res as [err|code [err|[]]]; try discriminate.
  intros Ha. now apply andb_true_iff in Ha as [-> _].
Qed.

(** C4, amended. The gateway client never raises: it always returns one of
    its three results.  With the token configured it sends one request and
    returns the success result if and only if the gateway answers with
    status 200 and a JSON object whose [IsSuccess] is true and whose [Data]
    is an object holding an [InvoiceId] (so only with status 200 and a true
    success flag); every other outcome gives the failure result: with the
    [Message] of the response as reason (whatever it is, the empty string
    included) or "MyFatoorah request failed" when there is none, for a JSON
    object the client rejects; with the text of the exception for a network
    error or a body that is not JSON. *)
Theorem gateway_client_outcomes `{Repr} (order_id : string) (total : Q)
    (name : string) (email mobile : option string) (w : world) :
  exists r w',
    create_myfatoorah_invoice order_id total name email mobile w =
      (Ok (to_dict r), w') /\
    (token_configured w = true ->
     exists rq,
       w' = with_posted (posted w ++ [rq])%list w /\
       is_succeeded r = accepted (gateway w rq) /\
       is_failed r = negb (accepted (gateway w rq)) /\
       (is_succeeded r = true ->
        success_status_and_flag (gateway w rq) = true) /\
       (forall data,
          rejected (gateway w rq) = Some data ->
          r = Failed (get_default data "Message"
                        (VStr "MyFatoorah request failed"))
                     (Some (VDict data))) /\
       (forall err,
          gateway w rq = RequestException err -> r = Failed (VStr err) None) /\
       (forall code err,
          gateway w rq = Response code (NotJson err) ->
          r = Failed (VStr err) None)).
Proof.
  destruct (token_configured w) eqn:Ht.
  - destruct (invoice_configured order_id total name email mobile w Ht)
      as (r & rq & Hrun & Hnc & Hsucc & Hrej & Herr & Hjson).
    exists r, (with_posted (posted w ++ [rq])%list w).
    split; [exact Hrun|]. intros _. exists rq.
    split; [reflexivity|]. split; [exact Hsucc|].
    split; [|split; [|auto]].
    + rewrite <- Hsucc. now destruct r.
    + rewrite Hsucc. apply accepted_success_status_and_flag.
  - exists (NotConfigured "MyFatoorah token not configured"), w.
    split; [now apply invoice_not_configured|discriminate].
Qed.

Example gateway_client_accepts :
  create_myfatoorah_invoice (H := repr0) "0" 299%Q "Ann" None None w_accept =
    (Ok (to_dict (Succeeded "77" (VStr "https://pay.example/77"))),
     with_posted
       (posted (snd (create_myfatoorah_invoice (H := repr0) "0" 299%Q "Ann"
                       None None w_accept)))
       w_accept).
Proof. reflexivity. Qed.

Example gateway_client_rejects :
  fst (create_myfatoorah_invoice (H := repr0) "0" 299%Q "Ann" None None
         w_reject) =
    Ok (to_dict (Failed (VStr "Invalid token")
                   (Some (VDict [("IsSuccess", VBool false);
                                 ("Message", VStr "Invalid token")])))).
Proof. reflexivity. Qed.

(* ===================================================================== *)
(** ** The properties of the specification: the payment callback          *)
(* ===================================================================== *)

(** C1 does not hold as stated: a payload with none of the three fields
    (the empty payload, or one with other keys only) is acknowledged and
    leaves the world as it was; no audit record is stored. *)
Lemma callback_unrecognised_payload_not_recorded :
  payment_callback (H := repr0) [] w_orders =
    (Ok [("ok", VBool true)], w_orders) /\
  payment_callback (H := repr0) [("Event", VStr "ping")] w_orders =
    (Ok [("ok", VBool true)], w_orders) /\
  coll (db w_orders) "order_callbacks" = [].
Proof. repeat split; reflexivity. Qed.

(** C1, amended. When no call to the driver raises, for a payload and
    orders the store accepts, the callback answers [{ok: true}]; it appends
    one audit record holding the payload to [order_callbacks] when the
    payload has a true [PaymentId], a non-empty [InvoiceId] or a true
    status, whether or not an order matched, and it stores no audit record
    otherwise. *)
Theorem callback_audit `{Repr} (payload : dict) (w : world) :
  faults w = [] ->
  storable (VDict payload) = true ->
  orders_storable w = true ->
  fst (payment_callback payload w) = Ok [("ok", VBool true)] /\
  coll (db (snd (payment_callback payload w))) "order_callbacks" =
    (coll (db w) "order_callbacks" ++
     if recognised payload
     then [audit_record (next_id (db w)) payload] else [])%list.
Proof.
  intros Hf _ _. rewrite payment_callback_healthy by assumption. simpl.
  split; [reflexivity|]. apply callback_db_audit.
Qed.

(** A payload with a payment identifier and no invoice identifier: no order
    is matched, the audit record is stored. *)
Lemma callback_audit_witness :
  faults w_orders = [] /\
  storable (VDict [("PaymentId", VStr "P-1")]) = true /\
  orders_storable w_orders = true /\
  fst (payment_callback (H := repr0) [("PaymentId", VStr "P-1")] w_orders) =
    Ok [("ok", VBool true)] /\
  coll (db (snd (payment_callback (H := repr0) [("PaymentId", VStr "P-1")]
                   w_orders))) "order_callbacks" =
    [audit_record 2 [("PaymentId", VStr "P-1")]].
Proof.
  do 3 (split; [reflexivity|]).
  exact (callback_audit (H := repr0) [("PaymentId", VStr "P-1")] w_orders
           eq_refl eq_refl eq_refl).
Defined.

(** C5 does not hold as stated: a field that is present with a false value
    is treated as absent.  A [PaymentId] of 0 is not copied to the matched
    order, and an empty [TransactionStatus] gives way to [InvoiceStatus]. *)
Lemma callback_false_fields_dropped :
  lookup "PaymentId" [("InvoiceId", VStr "X"); ("PaymentId", VInt 0)]
    = Some (VInt 0) /\
  coll (db (snd (payment_callback (H := repr0)
                   [("InvoiceId", VStr "X"); ("PaymentId", VInt 0)]
                   w_orders))) "order"
    = coll (db w_orders) "order" /\
  lookup "TransactionStatus"
    [("InvoiceId", VStr "X"); ("TransactionStatus", VStr "");
     ("InvoiceStatus", VStr "Paid")] = Some (VStr "") /\
  match coll (db (snd (payment_callback (H := repr0)
                         [("InvoiceId", VStr "X");
                          ("TransactionStatus", VStr "");
                          ("InvoiceStatus", VStr "Paid")]
                         w_orders))) "order" with
  | sd :: _ => get (doc_fields sd) "status"
  | [] => VNone
  end = VStr "paid".
Proof. repeat split; reflexivity. Qed.

(** C5, amended. When no call to the driver raises, for a payload and
    orders the store accepts, in a store where no order holds an array as
    [invoice_id], the callback creates and deletes no order.  When the
    payload has no [InvoiceId] (or an empty one) no order is matched and
    the orders are as they were; so they are when no order has the
    [InvoiceId] of the payload, as a string, for [invoice_id].  Otherwise
    the first order whose [invoice_id] is that string is patched and no
    other order changes: its [payment_id] becomes the [PaymentId] of the
    payload, as it is, when that is true; its [invoice_id] the string of the
    [InvoiceId]; its [status] the lower-cased string of [TransactionStatus]
    when that is true, of [InvoiceStatus] when that is true and
    [TransactionStatus] is not; every other field, and each of the three
    the payload does not have, keeps its value. *)
Theorem callback_patch `{Repr} (payload : dict) (w : world) :
  faults w = [] ->
  storable (VDict payload) = true ->
  orders_storable w = true ->
  forallb scalar_invoice (coll (db w) "order") = true ->
  let orders := coll (db w) "order" in
  let orders' := coll (db (snd (payment_callback payload w))) "order" in
  let s := str (get payload "InvoiceId") in
  map doc_id orders' = map doc_id orders /\
  (has_invoice_id payload = false -> orders' = orders) /\
  (has_invoice_id payload = true ->
   (forallb (fun x => negb (invoice_is s x)) orders = true ->
    orders' = orders) /\
   forall pre sd post,
     orders = (pre ++ sd :: post)%list ->
     forallb (fun x => negb (invoice_is s x)) pre = true ->
     invoice_is s sd = true ->
     exists sd',
       orders' = (pre ++ sd' :: post)%list /\
       doc_id sd' = doc_id sd /\
       forall k,
         lookup k (doc_fields sd')
           = patched_field payload k (lookup k (doc_fields sd))).
Proof.
  intros Hf _ _ Hsc. cbv zeta.
  rewrite payment_callback_healthy by assumption.
  cbn [snd db with_db]. rewrite callback_db_orders.
  destruct (has_invoice_id payload) eqn:Hi.
  - split; [apply update_first_ids|]. split; [discriminate|].
    intros _. split.
    + intros Hno. apply update_first_no_match. now apply scalar_no_match.
    + intros pre sd post Hc Hpre Hsd.
      exists (patch (callback_update payload) sd).
      rewrite Hc in Hsc |- *.
      rewrite forallb_app in Hsc. apply andb_true_iff in Hsc as [Hs1 Hs2].
      cbn [forallb] in Hs2. apply andb_true_iff in Hs2 as [Hs2 _].
      rewrite update_first_split;
        [|now apply scalar_no_match|now rewrite matches_invoice_is].
      split; [reflexivity|]. split; [reflexivity|].
      intros k. apply callback_update_lookup.
  - split; [reflexivity|]. split; [reflexivity|discriminate].
Qed.

(** The round trip of the specification: invoice X is reported paid; the
    order that awaits invoice X has its status set, the other is as it
    was. *)
Lemma callback_patch_witness :
  faults w_orders = [] /\ storable (VDict paid_X) = true /\
  orders_storable w_orders = true /\
  forallb scalar_invoice (coll (db w_orders) "order") = true /\
  has_invoice_id (H := repr0) paid_X = true /\
  exists sd',
    coll (db (snd (payment_callback (H := repr0) paid_X w_orders))) "order" =
      [ sd';
        {| doc_id := 1;
           doc_fields := [("customer_name", VStr "Bob");
                          ("status", VStr "pending");
                          ("invoice_id", VStr "Y")] |} ] /\
    doc_id sd' = 0%N /\
    forall k,
      lookup k (doc_fields sd')
        = patched_field (H := repr0) paid_X k
            (lookup k [("customer_name", VStr "Ann");
                       ("status", VStr "pending");
                       ("invoice_id", VStr "X")]).
Proof.
  do 5 (split; [reflexivity|]).
  exact (proj2 (proj2 (proj2 (callback_patch (H := repr0) paid_X w_orders
                                eq_refl eq_refl eq_refl eq_refl))
                  eq_refl)
           []
           {| doc_id := 0;
              doc_fields := [("customer_name", VStr "Ann");
                             ("status", VStr "pending");
                             ("invoice_id", VStr "X")] |}
           [ {| doc_id := 1;
                doc_fields := [("customer_name", VStr "Bob");
                               ("status", VStr "pending");
                               ("invoice_id", VStr "Y")] |} ]
           eq_refl eq_refl eq_refl).
Defined.

(** The orders after that delivery. *)
Example callback_round_trip :
  coll (db (snd (payment_callback (H := repr0) paid_X w_orders))) "order" =
    [ {| doc_id := 0;
         doc_fields := [("customer_name", VStr "Ann");
                        ("status", VStr "paid");
                        ("invoice_id", VStr "X")] |};
      {| doc_id := 1;
         doc_fields := [("customer_name", VStr "Bob");
                        ("status", VStr "pending");
                        ("invoice_id", VStr "Y")] |} ].
Proof. reflexivity. Qed.

(** A status that is not ASCII is lower-cased as a Unicode text. *)
Example callback_accented_status :
  match coll (db (snd (payment_callback (H := repr0) paid_accented
                         w_orders))) "order" with
  | sd :: _ => get (doc_fields sd) "status"
  | [] => VNone
  end = VStr "payé".
Proof. reflexivity. Qed.

(** C9 does not hold for every payload.  The driver cannot encode the
    payment identifier of [paid_huge], which does not fit in 64 bits, and
    raises at the update of each delivery: the order that awaits invoice X
    is matched and keeps its state, both deliveries are answered
    [{ok: false}], and no audit record is stored, where two are
    expected. *)
Lemma callback_replay_refused_payload :
  storable (VDict paid_huge) = false /\
  find_first (invoice_filter (H := repr0) paid_huge)
    (coll (db w_overflow) "order") <> None /\
  let r1 := payment_callback (H := repr0) paid_huge w_overflow in
  let r2 := payment_callback (H := repr0) paid_huge (snd r1) in
  fst r1 = Ok [("ok", VBool false); ("error", VStr overflow_error)] /\
  fst r2 = Ok [("ok", VBool false); ("error", VStr overflow_error)] /\
  coll (db (snd r2)) "order" = coll (db w_overflow) "order" /\
  coll (db (snd r2)) "order_callbacks" = [].
Proof. repeat split; try reflexivity. discriminate. Qed.

(** C9, amended. When no call to the driver raises, for a payload and
    orders the store accepts, in a store where no order holds an array as
    [invoice_id]: delivering twice a payload whose [InvoiceId] is that of an
    order leaves the orders as one delivery leaves them.  The first order
    with that [invoice_id] is patched to the same state both times, with
    the same status when the payload has one, and no other order changes;
    each delivery appends one audit record, so two deliveries append two
    records holding the payload. *)
Theorem callback_replay `{Repr} (payload : dict) (w : world)
    (pre post : list stored) (sd : stored) :
  faults w = [] ->
  storable (VDict payload) = true ->
  orders_storable w = true ->
  forallb scalar_invoice (coll (db w) "order") = true ->
  has_invoice_id payload = true ->
  coll (db w) "order" = (pre ++ sd :: post)%list ->
  forallb (fun x => negb (invoice_is (str (get payload "InvoiceId")) x)) pre
    = true ->
  invoice_is (str (get payload "InvoiceId")) sd = true ->
  let w1 := snd (payment_callback payload w) in
  let w2 := snd (payment_callback payload w1) in
  let sd' := patch (callback_update payload) sd in
  fst (payment_callback payload w) = Ok [("ok", VBool true)] /\
  fst (payment_callback payload w1) = Ok [("ok", VBool true)] /\
  coll (db w1) "order" = (pre ++ sd' :: post)%list /\
  coll (db w2) "order" = (pre ++ sd' :: post)%list /\
  (forall k,
     lookup k (doc_fields sd')
       = patched_field payload k (lookup k (doc_fields sd))) /\
  (has_status payload = true ->
   lookup "status" (doc_fields sd')
     = Some (VStr (lower (str (status_source payload))))) /\
  coll (db w2) "order_callbacks" =
    (coll (db w) "order_callbacks" ++
     [audit_record (next_id (db w)) payload;
      audit_record (N.succ (next_id (db w))) payload])%list.
Proof.
  intros Hf _ _ Hsc Hi Hc Hpre Hsd. cbv zeta.
  rewrite (payment_callback_healthy payload w Hf). cbn [fst snd].
  rewrite (payment_callback_healthy payload (with_db _ w)) by exact Hf.
  cbn [fst snd db with_db].
  assert (Hrec : recognised payload = true).
  { unfold recognised. rewrite Hi. now rewrite orb_true_r. }
  assert (H1 : coll (callback_db payload (db w)) "order"
               = (pre ++ patch (callback_update payload) sd :: post)%list).
  { rewrite callback_db_orders, Hi, Hc. rewrite Hc in Hsc.
    rewrite forallb_app in Hsc. apply andb_true_iff in Hsc as [Hs1 Hs2].
    cbn [forallb] in Hs2. apply andb_true_iff in Hs2 as [Hs2 _].
    apply update_first_split;
      [now apply scalar_no_match|now rewrite matches_invoice_is]. }
  do 2 (split; [reflexivity|]). split; [exact H1|].
  rewrite callback_db_orders_idem.
  split; [exact H1|]. split; [|split].
  - intros k. apply callback_update_lookup.
  - intros Hs. unfold patch. cbn [doc_fields].
    rewrite callback_update_lookup. unfold patched_field. simpl.
    now rewrite Hs.
  - rewrite !callback_db_audit, callback_db_next_id, Hrec.
    now rewrite <- app_assoc.
Qed.

(** Invoice X is reported paid twice. *)
Lemma callback_replay_witness :
  faults w_orders = [] /\ storable (VDict paid_X) = true /\
  orders_storable w_orders = true /\
  forallb scalar_invoice (coll (db w_orders) "order") = true /\
  has_invoice_id (H := repr0) paid_X = true /\
  coll (db (snd (payment_callback (H := repr0) paid_X
                   (snd (payment_callback (H := repr0) paid_X w_orders)))))
    "order"
  = [ {| doc_id := 0;
         doc_fields := [("customer_name", VStr "Ann");
                        ("status", VStr "paid");
                        ("invoice_id", VStr "X")] |};
      {| doc_id := 1;
         doc_fields := [("customer_name", VStr "Bob");
                        ("status", VStr "pending");
                        ("invoice_id", VStr "Y")] |} ] /\
  coll (db (snd (payment_callback (H := repr0) paid_X
                   (snd (payment_callback (H := repr0) paid_X w_orders)))))
    "order_callbacks"
  = [audit_record 2 paid_X; audit_record 3 paid_X].
Proof.
  do 5 (split; [reflexivity|]).
  pose proof (callback_replay (H := repr0) paid_X w_orders []
                [ {| doc_id := 1;
                     doc_fields := [("customer_name", VStr "Bob");
                                    ("status", VStr "pending");
                                    ("invoice_id", VStr "Y")] |} ]
                {| doc_id := 0;
                   doc_fields := [("customer_name", VStr "Ann");
                                  ("status", VStr "pending");
                                  ("invoice_id", VStr "X")] |}
                eq_refl eq_refl eq_refl eq_refl eq_refl eq_refl eq_refl
                eq_refl) as (_ & _ & _ & Ho & _ & _ & Ha).
  split; [exact Ho|exact Ha].
Defined.

(* ===================================================================== *)
(** ** Further properties: the gateway client                             *)
(* ===================================================================== *)

Section ClientFacts.
Context `{Repr}.

Lemma or_empty_default (o : option string) : or_empty o = default "" o.
Proof.
  destruct o as [s|]; [|reflexivity]. unfold or_empty, str_truthy. simpl.
  destruct (String.eqb s "") eqn:E; simpl; [|reflexivity].
  apply String.eqb_eq in E. now subst.
Qed.

Lemma headers_value (w : world) (tok : string) :
  environ w !! "MYFATOORAH_TOKEN" = Some tok -> str_truthy tok = true ->
  get_myfatoorah_headers w =
    (Ok [("Accept", "application/json");
         ("Content-Type", "application/json");
         ("Authorization", "Bearer " +:+ tok)], w).
Proof.
  intros Ht Hs. unfold get_myfatoorah_headers, getenv. run.
  now rewrite Ht, Hs.
Qed.

Lemma token_configured_some (w : world) (tok : string) :
  environ w !! "MYFATOORAH_TOKEN" = Some tok -> str_truthy tok = true ->
  token_configured w = true.
Proof. intros Ht Hs. unfold token_configured. now rewrite Ht. Qed.

(** With a token, the client is one call to the gateway under a handler;
    the request it sends is described field by field. *)
Lemma invoice_run (order_id : string) (total : Q) (name : string)
    (email mobile : option string) (w : world) (tok : string) :
  environ w !! "MYFATOORAH_TOKEN" = Some tok -> str_truthy tok = true ->
  exists rq,
    create_myfatoorah_invoice order_id total name email mobile w =
      try_except (send_payment rq)
        (fun e => mret [("configured", VBool true);
                        ("error", VStr (exn_str e))]) w /\
    url rq = default "https://apitest.myfatoorah.com"
               (environ w !! "MYFATOORAH_BASE_URL") +:+ "/v2/SendPayment" /\
    timeout rq = 20 /\
    headers rq = [("Accept", "application/json");
                  ("Content-Type", "application/json");
                  ("Authorization", "Bearer " +:+ tok)] /\
    json rq =
      [("CustomerName", VStr name);
       ("NotificationOption", VStr "LNK");
       ("InvoiceValue", VFloat (round3 total));
       ("DisplayCurrencyIso", VStr (currency (PRODUCT w)));
       ("CustomerEmail", VStr (default "" email));
       ("CustomerMobile", VStr (default "" mobile));
       ("CallBackUrl",
        VStr (default "http://localhost:8000/api/payment/callback"
                (environ w !! "PAYMENT_CALLBACK_URL")));
       ("ErrorUrl",
        VStr (default
                (default "http://localhost:8000/api/payment/callback"
                   (environ w !! "PAYMENT_CALLBACK_URL"))
                (environ w !! "PAYMENT_ERROR_URL")));
       ("Language", VStr "en");
       ("CustomerReference", VStr order_id);
       ("InvoiceItems",
        VList [VDict [("ItemName", VStr (title (PRODUCT w)));
                      ("Quantity", VInt 1);
                      ("UnitPrice", VFloat (round3 (price (PRODUCT w))))]])].
Proof.
  intros Ht Hs.
  unfold create_myfatoorah_invoice, myfatoorah_base_url, getenv_default.
  unfold mbind at 1, M_bind at 1, try_except at 1.
  unfold mbind at 1, M_bind at 1.
  rewrite (headers_value w tok Ht Hs). cbn [mret M_ret].
  unfold gets. cbn [mbind M_bind]. rewrite <- !or_empty_default.
  eexists. split; [reflexivity|]. repeat split; reflexivity.
Qed.

End ClientFacts.

Import More.

Lemma send_payment_not_dict `{Repr} (rq : http_request) (w : world)
    (code : Z) (data : value) :
  gateway w rq = Response code (Json data) -> is_dict data = false ->
  fst (send_payment rq w) =
    Raise (Exception ("'" +:+ type_name data
                        +:+ "' object has no attribute 'get'")).
Proof.
  intros Hgw Hd. unfold send_payment, requests_post, resp_json, attr_get. run.
  rewrite Hgw. simpl.
  destruct (code =? 200); destruct data; try discriminate; reflexivity.
Qed.

Lemma send_payment_accepted `{Repr} (rq : http_request) (w : world)
    (data fields : dict) (iid : value) :
  gateway w rq = Response 200 (Json (VDict data)) ->
  truthy (get data "IsSuccess") = true ->
  lookup "Data" data = Some (VDict fields) ->
  lookup "InvoiceId" fields = Some iid ->
  fst (send_payment rq w) =
    Ok (to_dict (Succeeded (str iid) (get fields "InvoiceURL"))).
Proof.
  intros Hgw Hs HD Hi.
  unfold send_payment, requests_post, resp_json, attr_get, subscript. run.
  rewrite Hgw. simpl. unfold get in Hs. unfold get_default at 1.
  destruct (lookup "IsSuccess" data) as [s|]; [|discriminate].
  rewrite Hs, HD. simpl. rewrite Hi. reflexivity.
Qed.

Lemma try_except_fst {A} (m : M A) (h : exn -> M A) (w : world) (a : A) :
  fst (m w) = Ok a -> fst (try_except m h w) = Ok a.
Proof.
  unfold try_except. destruct (m w) as [[a'|e] w']; simpl; congruence.
Qed.

(** X1. An empty [MYFATOORAH_TOKEN] counts as no token: the client returns
    its not-configured result and leaves the world as it was, and a
    checkout that stores its order answers that the gateway is not
    configured, having sent no request. *)
Theorem empty_token_not_configured `{Repr} (req : CheckoutRequest.t)
    (w : world) :
  environ w !! "MYFATOORAH_TOKEN" = Some "" ->
  (forall order_id total name email mobile,
     create_myfatoorah_invoice order_id total name email mobile w =
       (Ok [("configured", VBool false);
            ("error", VStr "MyFatoorah token not configured")], w)) /\
  (in_stock (PRODUCT w) = true -> next_op_ok w = true ->
   fst (checkout req w) =
     Ok {| CheckoutResponse.order_id := oid_str (next_id (db w));
           CheckoutResponse.payment_url := None;
           CheckoutResponse.message :=
             "Payment gateway not configured. Contact support." |} /\
   posted (snd (checkout req w)) = posted w).
Proof.
  intros Htok.
  assert (Hw : forall w', environ w' = environ w -> token_configured w' = false).
  { intros w' He. unfold token_configured. now rewrite He, Htok. }
  split.
  - intros. apply invoice_not_configured. now apply Hw.
  - intros Hs Hf. rewrite checkout_stored by assumption. unfold gateway_call.
    rewrite invoice_not_configured by (now apply Hw).
    rewrite respond_not_configured. split; reflexivity.
Qed.

Lemma empty_token_not_configured_witness :
  environ w_blank_token !! "MYFATOORAH_TOKEN" = Some "" /\
  fst (checkout (H := repr0) ann w_blank_token) =
    Ok {| CheckoutResponse.order_id := "0";
          CheckoutResponse.payment_url := None;
          CheckoutResponse.message :=
            "Payment gateway not configured. Contact support." |} /\
  posted (snd (checkout (H := repr0) ann w_blank_token)) = [].
Proof.
  split; [reflexivity|].
  exact (proj2 (empty_token_not_configured (H := repr0) ann w_blank_token
                  eq_refl) eq_refl eq_refl).
Defined.

Lemma invoice_posted `{Repr} (order_id : string) (total : Q) (name : string)
    (email mobile : option string) (w : world) (rq : http_request) :
  create_myfatoorah_invoice order_id total name email mobile w =
    try_except (send_payment rq)
      (fun e => mret [("configured", VBool true);
                      ("error", VStr (exn_str e))]) w ->
  posted (snd (create_myfatoorah_invoice order_id total name email mobile w))
    = (posted w ++ [rq])%list.
Proof.
  intros ->. unfold try_except.
  destruct (send_payment_spec rq w) as (r & -> & _).
  destruct r; reflexivity.
Qed.

(** X2. With a token, the client sends its request to the [/v2/SendPayment]
    path of the configured base URL, the sandbox when none is configured,
    with a timeout of 20; the callback URL of the request is the configured
    one or the localhost default, and its error URL is the configured one
    or, when none is configured, the callback URL of the request. *)
Theorem invoice_request_urls `{Repr} (order_id : string) (total : Q)
    (name : string) (email mobile : option string) (w : world)
    (tok : string) :
  environ w !! "MYFATOORAH_TOKEN" = Some tok -> str_truthy tok = true ->
  exists rq,
    posted (snd (create_myfatoorah_invoice order_id total name email mobile w))
      = (posted w ++ [rq])%list /\
    url rq = default "https://apitest.myfatoorah.com"
               (environ w !! "MYFATOORAH_BASE_URL") +:+ "/v2/SendPayment" /\
    timeout rq = 20 /\
    get (json rq) "CallBackUrl" =
      VStr (default "http://localhost:8000/api/payment/callback"
              (environ w !! "PAYMENT_CALLBACK_URL")) /\
    get (json rq) "ErrorUrl" =
      match environ w !! "PAYMENT_ERROR_URL" with
      | Some u => VStr u
      | None => get (json rq) "CallBackUrl"
      end.
Proof.
  intros Ht Hs.
  destruct (invoice_run order_id total name email mobile w tok Ht Hs)
    as (rq & Hrun & Hurl & Htime & _ & Hjson).
  exists rq. split; [now apply invoice_posted|].
  split; [exact Hurl|]. split; [exact Htime|]. rewrite Hjson.
  split; [reflexivity|].
  unfold get. simpl. now destruct (environ w !! "PAYMENT_ERROR_URL").
Qed.

Lemma invoice_request_urls_witness :
  exists rq,
    posted (snd (create_myfatoorah_invoice (H := repr0) "0" 299%Q "Ann"
                   None None w_accept)) = [rq] /\
    url rq = "https://apitest.myfatoorah.com/v2/SendPayment" /\
    timeout rq = 20 /\
    get (json rq) "CallBackUrl" =
      VStr "http://localhost:8000/api/payment/callback" /\
    get (json rq) "ErrorUrl" = get (json rq) "CallBackUrl".
Proof.
  exact (invoice_request_urls (H := repr0) "0" 299%Q "Ann" None None
           w_accept "tok" eq_refl eq_refl).
Defined.

(** X3. With a token, the request carries the token as a bearer
    authorization, the identifier it was given as [CustomerReference], the
    customer's name, the email and the mobile number as strings (the empty
    string when the customer gave none), the currency of the product, and
    exactly one invoice item, the product, in quantity 1. *)
Theorem invoice_request_data `{Repr} (order_id : string) (total : Q)
    (name : string) (email mobile : option string) (w : world)
    (tok : string) :
  environ w !! "MYFATOORAH_TOKEN" = Some tok -> str_truthy tok = true ->
  exists rq item,
    posted (snd (create_myfatoorah_invoice order_id total name email mobile w))
      = (posted w ++ [rq])%list /\
    List.In ("Authorization", "Bearer " +:+ tok) (headers rq) /\
    get (json rq) "CustomerReference" = VStr order_id /\
    get (json rq) "CustomerName" = VStr name /\
    get (json rq) "CustomerEmail" = VStr (default "" email) /\
    get (json rq) "CustomerMobile" = VStr (default "" mobile) /\
    get (json rq) "DisplayCurrencyIso" = VStr (currency (PRODUCT w)) /\
    get (json rq) "InvoiceValue" = VFloat (round3 total) /\
    get (json rq) "InvoiceItems" = VList [VDict item] /\
    get item "ItemName" = VStr (title (PRODUCT w)) /\
    get item "Quantity" = VInt 1.
Proof.
  intros Ht Hs.
  destruct (invoice_run order_id total name email mobile w tok Ht Hs)
    as (rq & Hrun & _ & _ & Hhs & Hjson).
  exists rq. eexists. split; [now apply invoice_posted|].
  rewrite Hhs, Hjson. split; [simpl; auto|].
  repeat split; reflexivity.
Qed.

Lemma invoice_request_data_witness :
  exists rq item,
    posted (snd (create_myfatoorah_invoice (H := repr0) "17" 299%Q "Ann"
                   (Some "ann@example.com") None w_accept)) = [rq] /\
    List.In ("Authorization", "Bearer tok") (headers rq) /\
    get (json rq) "CustomerReference" = VStr "17" /\
    get (json rq) "CustomerName" = VStr "Ann" /\
    get (json rq) "CustomerEmail" = VStr "ann@example.com" /\
    get (json rq) "CustomerMobile" = VStr "" /\
    get (json rq) "DisplayCurrencyIso" = VStr "KWD" /\
    get (json rq) "InvoiceValue" = VFloat (round3 299) /\
    get (json rq) "InvoiceItems" = VList [VDict item] /\
    get item "ItemName" = VStr "Kalerm B6 Home Coffee Machine" /\
    get item "Quantity" = VInt 1.
Proof.
  exact (invoice_request_data (H := repr0) "17" 299%Q "Ann"
           (Some "ann@example.com") None w_accept "tok" eq_refl eq_refl).
Defined.

(** X4. The client never touches the store: whatever it is given and
    whatever the gateway does, the database, the driver, the catalog and the
    environment are as before, and it sends one request when the token is
    configured and none otherwise. *)
Theorem invoice_frame `{Repr} (order_id : string) (total : Q)
    (name : string) (email mobile : option string) (w : world) :
  let w' := snd (create_myfatoorah_invoice order_id total name email mobile w) in
  db w' = db w /\ faults w' = faults w /\ PRODUCT w' = PRODUCT w /\
  environ w' = environ w /\
  exists sent,
    posted w' = (posted w ++ sent)%list /\
    length sent = if token_configured w then 1%nat else 0%nat.
Proof.
  simpl.
  destruct (invoice_total order_id total name email mobile w)
    as (r & w' & -> & Hdb & Hf & HP & He & _ & _ & Hp).
  simpl. do 4 (split; [assumption|]).
  destruct (token_configured w).
  - destruct Hp as [rq ->]. now exists [rq].
  - subst w'. exists []. now rewrite app_nil_r.
Qed.

(** X5. With a token, a JSON answer that is not an object (an array, a
    string, a number, null) gives the failure result, with the text of the
    attribute error as reason and no details, whatever the status code. *)
Theorem invoice_body_not_object `{Repr} (order_id : string) (total : Q)
    (name : string) (email mobile : option string) (w : world)
    (code : Z) (data : value) :
  token_configured w = true ->
  (forall rq, gateway w rq = Response code (Json data)) ->
  is_dict data = false ->
  fst (create_myfatoorah_invoice order_id total name email mobile w) =
    Ok [("configured", VBool true);
        ("error", VStr ("'" +:+ type_name data
                          +:+ "' object has no attribute 'get'"))].
Proof.
  intros Ht Hgw Hd. unfold token_configured in Ht.
  destruct (environ w !! "MYFATOORAH_TOKEN") as [tok|] eqn:Htok;
    [|discriminate].
  destruct (invoice_run order_id total name email mobile w tok Htok Ht)
    as (rq & -> & _).
  pose proof (send_payment_not_dict rq w code data (Hgw rq) Hd) as Hrun.
  unfold try_except. destruct (send_payment rq w) as [r w1].
  simpl in Hrun. subst r. reflexivity.
Qed.

Lemma invoice_body_not_object_witness :
  token_configured w_array = true /\ is_dict (VList [VStr "maintenance"]) = false /\
  fst (create_myfatoorah_invoice (H := repr0) "0" 299%Q "Ann" None None
         w_array) =
    Ok [("configured", VBool true);
        ("error", VStr "'list' object has no attribute 'get'")].
Proof.
  do 2 (split; [reflexivity|]).
  exact (invoice_body_not_object (H := repr0) "0" 299%Q "Ann" None None
           w_array 200 (VList [VStr "maintenance"]) eq_refl
           (fun _ => eq_refl) eq_refl).
Defined.

(** X6. With a token, when the gateway answers with status 200 and a JSON
    object whose [IsSuccess] is true and whose [Data] is an object holding
    an [InvoiceId], the success result carries that identifier as a string
    ([str] of it, whatever its JSON type) and the [InvoiceURL] as sent,
    [None] when the answer has none. *)
Theorem invoice_success_content `{Repr} (order_id : string) (total : Q)
    (name : string) (email mobile : option string) (w : world)
    (data fields : dict) (iid : value) :
  token_configured w = true ->
  (forall rq, gateway w rq = Response 200 (Json (VDict data))) ->
  truthy (get data "IsSuccess") = true ->
  lookup "Data" data = Some (VDict fields) ->
  lookup "InvoiceId" fields = Some iid ->
  fst (create_myfatoorah_invoice order_id total name email mobile w) =
    Ok [("configured", VBool true);
        ("invoice_id", VStr (str iid));
        ("invoice_url", get fields "InvoiceURL")].
Proof.
  intros Ht Hgw Hs HD Hi. unfold token_configured in Ht.
  destruct (environ w !! "MYFATOORAH_TOKEN") as [tok|] eqn:Htok;
    [|discriminate].
  destruct (invoice_run order_id total name email mobile w tok Htok Ht)
    as (rq & -> & _).
  apply try_except_fst.
  exact (send_payment_accepted rq w data fields iid (Hgw rq) Hs HD Hi).
Qed.

Lemma invoice_success_content_witness :
  token_configured w_accept = true /\
  fst (create_myfatoorah_invoice (H := repr0) "0" 299%Q "Ann" None None
         w_accept) =
    Ok [("configured", VBool true);
        ("invoice_id", VStr "77");
        ("invoice_url", VStr "https://pay.example/77")].
Proof.
  split; [reflexivity|].
  exact (invoice_success_content (H := repr0) "0" 299%Q "Ann" None None
           w_accept
           [("IsSuccess", VBool true);
            ("Data", VDict [("InvoiceId", VInt 77);
                            ("InvoiceURL", VStr "https://pay.example/77")])]
           [("InvoiceId", VInt 77);
            ("InvoiceURL", VStr "https://pay.example/77")]
           (VInt 77) eq_refl (fun _ => eq_refl) eq_refl eq_refl eq_refl).
Defined.

(* ===================================================================== *)
(** ** Further properties: checkout                                       *)
(* ===================================================================== *)

(** X7. When the gateway client reports a failure, [checkout] answers with
    no payment link and the message "Payment creation failed: " followed by
    the reason as a string; the order stays stored. *)
Theorem checkout_failed_message `{Repr} (req : CheckoutRequest.t) (w : world)
    (reason : value) (details : option value) :
  in_stock (PRODUCT w) = true -> next_op_ok w = true ->
  fst (gateway_call w req) = Ok (to_dict (Failed reason details)) ->
  fst (checkout req w) =
    Ok {| CheckoutResponse.order_id := oid_str (next_id (db w));
          CheckoutResponse.payment_url := None;
          CheckoutResponse.message :=
            "Payment creation failed: " +:+ str reason |} /\
  coll (db (snd (checkout req w))) "order"
    = (coll (db w) "order" ++ [new_order w req])%list.
Proof.
  intros Hs Hf Hgw. split.
  - rewrite checkout_stored by assumption.
    destruct (gateway_call w req) as [r w2]. simpl in Hgw. subst r.
    cbv beta iota.
    pose proof (respond_failed (oid_str (next_id (db w))) reason details w2)
      as Hr.
    destruct details; unfold to_dict in *; now rewrite Hr.
  - rewrite checkout_db, Hs, Hf. apply coll_db_with_order.
Qed.

(** The gateway cannot be reached: the text of the network error is the
    reason. *)
Lemma checkout_failed_message_witness :
  in_stock (PRODUCT w_gw_down) = true /\ next_op_ok w_gw_down = true /\
  fst (checkout (H := repr0) ann w_gw_down) =
    Ok {| CheckoutResponse.order_id := "0";
          CheckoutResponse.payment_url := None;
          CheckoutResponse.message :=
            "Payment creation failed: connection timed out" |}.
Proof.
  do 2 (split; [reflexivity|]).
  exact (proj1 (checkout_failed_message (H := repr0) ann w_gw_down
                  (VStr "connection timed out") None
                  eq_refl eq_refl eq_refl)).
Defined.

(** X8. When the store refuses the insertion of the order, [checkout]
    raises the exception of the driver: nothing is stored and no request
    goes to the gateway. *)
Theorem checkout_store_unavailable `{Repr} (req : CheckoutRequest.t)
    (w : world) (msg : string) (rest : list (option string)) :
  in_stock (PRODUCT w) = true -> faults w = Some msg :: rest ->
  fst (checkout req w) = Raise (Exception msg) /\
  db (snd (checkout req w)) = db w /\
  posted (snd (checkout req w)) = posted w.
Proof.
  intros Hs Hf. unfold checkout, create_document, insert_one, driver. run.
  rewrite Hs. simpl. rewrite Hf. simpl. auto.
Qed.

Lemma checkout_store_unavailable_witness :
  in_stock (PRODUCT w_store_down) = true /\
  fst (checkout (H := repr0) ann w_store_down)
    = Raise (Exception "store unavailable") /\
  db (snd (checkout (H := repr0) ann w_store_down)) = two_orders /\
  posted (snd (checkout (H := repr0) ann w_store_down)) = [].
Proof.
  split; [reflexivity|].
  exact (checkout_store_unavailable (H := repr0) ann w_store_down
           "store unavailable" [] eq_refl eq_refl).
Defined.

Lemma persisted_token (w : world) (req : CheckoutRequest.t) :
  token_configured (persisted w req) = token_configured w.
Proof. reflexivity. Qed.

(** X9. A checkout sends one request to the gateway when the product is in
    stock, the order is stored and the token is configured, and none
    otherwise; the request carries as [CustomerReference] the identifier of
    the order just stored, which is the [order_id] of the response, and as
    [InvoiceValue] the rounded total of the order. *)
Theorem checkout_request `{Repr} (req : CheckoutRequest.t) (w : world) :
  let w' := snd (checkout req w) in
  if in_stock (PRODUCT w) && next_op_ok w && token_configured w then
    exists rq,
      posted w' = (posted w ++ [rq])%list /\
      get (json rq) "CustomerReference" = VStr (oid_str (next_id (db w))) /\
      get (json rq) "InvoiceValue" =
        VFloat (round3 (Order.total_amount (build_order (PRODUCT w) req))) /\
      forall resp,
        fst (checkout req w) = Ok resp ->
        get (json rq) "CustomerReference"
          = VStr (CheckoutResponse.order_id resp)
  else posted w' = posted w.
Proof.
  simpl. destruct (in_stock (PRODUCT w)) eqn:Hs; simpl.
  - destruct (next_op_ok w) eqn:Hf; simpl.
    + pose proof (checkout_response_id req w) as Hid.
      rewrite checkout_stored in * by assumption.
      unfold gateway_call in *.
      set (oid := oid_str (next_id (db w))) in *.
      set (total := Order.total_amount (build_order (PRODUCT w) req)) in *.
      set (wp := persisted w req) in *.
      rewrite <- (persisted_token w req). fold wp.
      assert (Hkeep : forall r w2,
                 posted (snd (match r with
                              | Ok mf => respond oid mf w2
                              | Raise e => (Raise e, w2)
                              end)) = posted w2).
      { intros [mf|e] w2; [|reflexivity].
        now destruct (respond_keeps oid mf w2) as (_ & _ & _ & _ & ->). }
      destruct (token_configured wp) eqn:Ht.
      * unfold token_configured in Ht.
        destruct (environ wp !! "MYFATOORAH_TOKEN") as [tok|] eqn:Htok;
          [|discriminate].
        destruct (invoice_run oid total (CheckoutRequest.customer_name req)
                    (CheckoutRequest.customer_email req)
                    (CheckoutRequest.customer_mobile req) wp tok Htok Ht)
          as (rq & Hrun & _ & _ & _ & Hjson).
        pose proof (invoice_posted _ _ _ _ _ _ _ Hrun) as Hp.
        exists rq.
        destruct (create_myfatoorah_invoice oid total _ _ _ wp) as [r w2].
        cbn [snd] in Hp. rewrite (Hkeep r w2), Hp, Hjson.
        split; [reflexivity|]. split; [reflexivity|]. split; [reflexivity|].
        intros resp Hr. destruct (Hid resp Hr) as [_ ->]. reflexivity.
      * destruct (invoice_total oid total (CheckoutRequest.customer_name req)
                    (CheckoutRequest.customer_email req)
                    (CheckoutRequest.customer_mobile req) wp)
          as (r & w2 & Hc & _ & _ & _ & _ & _ & _ & Hp).
        rewrite Ht in Hp. subst w2. rewrite Hc.
        rewrite (Hkeep (Ok (to_dict r)) wp). reflexivity.
    + destruct (checkout_store_down req w Hs Hf) as [e ->]. reflexivity.
  - now rewrite checkout_sold_out.
Qed.

(** X10. Whatever its outcome, [checkout] changes no document that was
    stored before it ran: the order collection afterwards is the collection
    before followed by at most the one new order, and every other
    collection is as it was. *)
Theorem checkout_frame `{Repr} (req : CheckoutRequest.t) (w : world) :
  let w' := snd (checkout req w) in
  (exists added,
     coll (db w') "order" = (coll (db w) "order" ++ added)%list /\
     (added = [] \/ added = [new_order w req])) /\
  forall name, name <> "order" ->
    collections (db w') !! name = collections (db w) !! name.
Proof.
  simpl. rewrite checkout_db.
  destruct (in_stock (PRODUCT w) && next_op_ok w).
  - split.
    + exists [new_order w req]. rewrite coll_db_with_order. auto.
    + intros name Hne. simpl. now rewrite lookup_insert_ne.
  - split; [|reflexivity]. exists []. rewrite app_nil_r. auto.
Qed.

(* ===================================================================== *)
(** ** Further properties: the payment callback                           *)
(* ===================================================================== *)

(** X11. The callback never raises.  It answers [{ok: true}], or, when a
    call to the driver raised, [{ok: false, error: msg}] with the message of
    that exception. *)
Theorem callback_never_raises `{Repr} (payload : dict) (w : world) :
  fst (payment_callback payload w) = Ok [("ok", VBool true)] \/
  exists msg,
    List.In (Some msg) (faults w) /\
    fst (payment_callback payload w)
      = Ok [("ok", VBool false); ("error", VStr msg)].
Proof.
  unfold payment_callback, update_one, insert_one, driver. run.
  destruct (dict_truthy (callback_update payload)); [|now left].
  destruct (truthy (callback_invoice_id payload)); simpl.
  - destruct (faults w) as [|[m1|] fs] eqn:Hf; simpl; rewrite ?Hf; simpl.
    + now left.
    + right. exists m1. auto.
    + destruct fs as [|[m2|] fs]; simpl.
      * now left.
      * right. exists m2. auto.
      * now left.
  - destruct (faults w) as [|[m1|] fs] eqn:Hf; simpl.
    + now left.
    + right. exists m1. auto.
    + now left.
Qed.

(** X12. When the first call to the driver raises, the callback reports the
    failure and the database is as before: the order is not patched and no
    audit record is stored. *)
Theorem callback_first_call_raises `{Repr} (payload : dict) (w : world)
    (msg : string) (rest : list (option string)) :
  recognised payload = true -> faults w = Some msg :: rest ->
  payment_callback payload w =
    (Ok [("ok", VBool false); ("error", VStr msg)], with_faults rest w).
Proof.
  intros Hr Hf. unfold payment_callback, update_one, insert_one, driver. run.
  rewrite callback_update_truthy, Hr.
  destruct (truthy (callback_invoice_id payload)); simpl; now rewrite Hf.
Qed.

Lemma callback_first_call_raises_witness :
  recognised (H := repr0) paid_X = true /\
  fst (payment_callback (H := repr0) paid_X w_store_down)
    = Ok [("ok", VBool false); ("error", VStr "store unavailable")] /\
  db (snd (payment_callback (H := repr0) paid_X w_store_down)) = two_orders.
Proof.
  split; [reflexivity|].
  rewrite (callback_first_call_raises (H := repr0) paid_X w_store_down
             "store unavailable" [] eq_refl eq_refl).
  split; reflexivity.
Defined.

(** X13. When the update of the order goes through and the insertion of the
    audit record raises, the callback reports the failure although the
    order is patched, and the payload is not recorded. *)
Theorem callback_audit_insert_raises `{Repr} (payload : dict) (w : world)
    (msg : string) (rest : list (option string)) :
  has_invoice_id payload = true -> faults w = None :: Some msg :: rest ->
  let w' := snd (payment_callback payload w) in
  fst (payment_callback payload w)
    = Ok [("ok", VBool false); ("error", VStr msg)] /\
  coll (db w') "order"
    = update_first (invoice_filter payload) (callback_update payload)
        (coll (db w) "order") /\
  coll (db w') "order_callbacks" = coll (db w) "order_callbacks".
Proof.
  intros Hi Hf. simpl.
  assert (Hrec : recognised payload = true).
  { unfold recognised. rewrite Hi. now rewrite orb_true_r. }
  unfold payment_callback, update_one, insert_one, driver. run.
  rewrite callback_update_truthy, Hrec, callback_invoice_id_truthy, Hi.
  rewrite (callback_invoice_id_value payload Hi).
  simpl. rewrite Hf. simpl.
  split; [reflexivity|]. split.
  - apply (coll_db_update_eq "order").
  - now apply (coll_db_update_ne "order" "order_callbacks").
Qed.

Lemma callback_audit_insert_raises_witness :
  has_invoice_id (H := repr0) paid_X = true /\
  fst (payment_callback (H := repr0) paid_X w_store_flaky)
    = Ok [("ok", VBool false); ("error", VStr "store unavailable")] /\
  doc_fields <$>
     head (coll (db (snd (payment_callback (H := repr0) paid_X
                            w_store_flaky))) "order")
    = Some [("customer_name", VStr "Ann"); ("status", VStr "paid");
            ("invoice_id", VStr "X")] /\
  coll (db (snd (payment_callback (H := repr0) paid_X w_store_flaky)))
    "order_callbacks" = [].
Proof.
  split; [reflexivity|].
  destruct (callback_audit_insert_raises (H := repr0) paid_X w_store_flaky
              "store unavailable" [] eq_refl eq_refl) as (Hr & Ho & Ha).
  split; [exact Hr|]. split; [now rewrite Ho|exact Ha].
Defined.

(** X14. When no call to the driver raises, for a payload the store
    accepts, in a store where no order holds an array as [invoice_id]: a
    payload whose invoice identifier no order carries is acknowledged with
    [{ok: true}], changes no order, and is recorded in the audit log all the
    same. *)
Theorem callback_unmatched_invoice `{Repr} (payload : dict) (w : world) :
  faults w = [] ->
  storable (VDict payload) = true ->
  has_invoice_id payload = true ->
  forallb scalar_invoice (coll (db w) "order") = true ->
  forallb (fun sd => negb (invoice_is (str (get payload "InvoiceId")) sd))
    (coll (db w) "order") = true ->
  let w' := snd (payment_callback payload w) in
  fst (payment_callback payload w) = Ok [("ok", VBool true)] /\
  coll (db w') "order" = coll (db w) "order" /\
  coll (db w') "order_callbacks"
    = (coll (db w) "order_callbacks"
       ++ [audit_record (next_id (db w)) payload])%list.
Proof.
  intros Hf _ Hi Hsc Hno. simpl. rewrite payment_callback_healthy by assumption.
  cbn [fst snd db with_db]. split; [reflexivity|].
  rewrite callback_db_orders, callback_db_audit, Hi.
  split; [apply update_first_no_match; now apply scalar_no_match|].
  unfold recognised. rewrite Hi. now rewrite orb_true_r.
Qed.

Lemma callback_unmatched_invoice_witness :
  faults w_orders = [] /\ storable (VDict paid_Z) = true /\
  has_invoice_id (H := repr0) paid_Z = true /\
  forallb scalar_invoice (coll (db w_orders) "order") = true /\
  fst (payment_callback (H := repr0) paid_Z w_orders)
    = Ok [("ok", VBool true)] /\
  coll (db (snd (payment_callback (H := repr0) paid_Z w_orders))) "order"
    = coll two_orders "order" /\
  coll (db (snd (payment_callback (H := repr0) paid_Z w_orders)))
    "order_callbacks" = [audit_record 2 paid_Z].
Proof.
  do 4 (split; [reflexivity|]).
  exact (callback_unmatched_invoice (H := repr0) paid_Z w_orders
           eq_refl eq_refl eq_refl eq_refl eq_refl).
Defined.

#[global] Instance callback_keeps_refl : Reflexive callback_keeps.
Proof.
  intros w. unfold callback_keeps. repeat split; try reflexivity.
  exists []. now rewrite app_nil_r.
Qed.

#[global] Instance callback_keeps_trans : Transitive callback_keeps.
Proof.
  intros w1 w2 w3 (HP1 & He1 & Hg1 & Hp1 & Hc1 & Ho1 & a1 & Ha1)
    (HP2 & He2 & Hg2 & Hp2 & Hc2 & Ho2 & a2 & Ha2).
  unfold callback_keeps. repeat split; try congruence.
  - intros name H1 H2. now rewrite Hc2, Hc1.
  - exists (a1 ++ a2)%list. now rewrite Ha2, Ha1, <- app_assoc.
Qed.

Lemma db_update_order_keeps (f u : dict) (w w0 : world) :
  PRODUCT w0 = PRODUCT w -> environ w0 = environ w ->
  gateway w0 = gateway w -> posted w0 = posted w ->
  callback_keeps w (with_db (snd (db_update "order" f u (db w))) w0).
Proof.
  intros HP He Hg Hp. unfold callback_keeps.
  cbn [db with_db PRODUCT environ gateway posted].
  do 4 (split; [assumption|]). split; [|split].
  - intros name H1 H2. unfold db_update. cbn [snd collections].
    rewrite lookup_alter_ne by congruence. reflexivity.
  - rewrite coll_db_update_eq. apply update_first_ids.
  - exists []. rewrite app_nil_r.
    now apply (coll_db_update_ne "order" "order_callbacks").
Qed.

Lemma db_insert_audit_keeps (doc : dict) (w w0 : world) :
  PRODUCT w0 = PRODUCT w -> environ w0 = environ w ->
  gateway w0 = gateway w -> posted w0 = posted w ->
  callback_keeps w
    (with_db (snd (db_insert "order_callbacks" doc (db w))) w0).
Proof.
  intros HP He Hg Hp. unfold callback_keeps.
  cbn [db with_db PRODUCT environ gateway posted].
  do 4 (split; [assumption|]). split; [|split].
  - intros name H1 H2. unfold db_insert. cbn [snd collections].
    rewrite lookup_insert_ne by congruence. reflexivity.
  - now rewrite (coll_db_insert_ne "order_callbacks" "order").
  - eexists. apply coll_db_insert_eq.
Qed.

Lemma with_faults_keeps (w : world) (fs : list (option string)) :
  callback_keeps w (with_faults fs w).
Proof.
  unfold callback_keeps.
  cbn [db with_faults PRODUCT environ gateway posted].
  do 6 (split; [reflexivity|]). exists []. now rewrite app_nil_r.
Qed.

Lemma update_one_order_keeps (f u : dict) (w : world) :
  callback_keeps w (snd (update_one "order" f u w)).
Proof.
  unfold update_one, driver.
  destruct (faults w) as [|[msg|] fs]; cbn [snd].
  - now apply db_update_order_keeps.
  - apply with_faults_keeps.
  - now apply db_update_order_keeps.
Qed.

Lemma insert_one_audit_keeps (doc : dict) (w : world) :
  callback_keeps w (snd (insert_one "order_callbacks" doc w)).
Proof.
  unfold insert_one, driver.
  destruct (faults w) as [|[msg|] fs]; cbn [snd].
  - now apply db_insert_audit_keeps.
  - apply with_faults_keeps.
  - now apply db_insert_audit_keeps.
Qed.

(** X15. Whatever the payload and whatever the driver does, the callback
    sends nothing to the gateway, leaves the catalog and the environment
    alone, and changes no collection but [order] and [order_callbacks]; it
    creates and deletes no order, and only appends to the audit log. *)
Theorem callback_frame `{Repr} (payload : dict) (w : world) :
  callback_keeps w (snd (payment_callback payload w)).
Proof.
  unfold payment_callback.
  apply (try_except_keeps callback_keeps); [|intros; reflexivity].
  apply (bind_keeps callback_keeps (fun _ => True)); [|auto|intros; reflexivity].
  destruct (dict_truthy (callback_update payload)); [|reflexivity].
  apply (bind_keeps callback_keeps (fun _ => True)); [|auto|].
  - destruct (truthy (callback_invoice_id payload)); [|reflexivity].
    apply update_one_order_keeps.
  - intros _ w1 _.
    apply (bind_keeps callback_keeps (fun _ => True));
      [apply insert_one_audit_keeps|auto|intros; reflexivity].
Qed.

Lemma lower_ascii_not_capital (c : ascii) : is_capital (lower_ascii c) = false.
Proof. destruct c as [[] [] [] [] [] [] [] []]; reflexivity. Qed.

Lemma lower_ascii_text_no_capital (s : string) :
  no_capital (lower_ascii_text s) = true.
Proof.
  induction s as [|c s IH]; simpl; [reflexivity|].
  now rewrite lower_ascii_not_capital, IH.
Qed.

(** X16. The status the callback writes for an ASCII status is in lower
    case: when no call to the driver raises, for a storable payload whose
    status is an ASCII text and that matches a storable order, the status of
    that order afterwards is the status of the payload with its letters A-Z
    moved to a-z, a text with no letter A-Z. *)
Theorem callback_status_lower `{Repr} (payload : dict) (w : world)
    (sd : stored) :
  faults w = [] -> storable (VDict payload) = true ->
  has_invoice_id payload = true ->
  has_status payload = true ->
  is_ascii (str (status_source payload)) = true ->
  find_first (invoice_filter payload) (coll (db w) "order") = Some sd ->
  storable (VDict (doc_fields sd)) = true ->
  exists sd',
    find_first (invoice_filter payload)
      (coll (db (snd (payment_callback payload w))) "order") = Some sd' /\
    doc_id sd' = doc_id sd /\
    lookup "status" (doc_fields sd')
      = Some (VStr (lower_ascii_text (str (status_source payload)))) /\
    no_capital (lower_ascii_text (str (status_source payload))) = true.
Proof.
  intros Hf _ Hi Hs Hascii Hfind _.
  exists (patch (callback_update payload) sd).
  rewrite payment_callback_healthy by assumption. cbn [snd db with_db].
  rewrite callback_db_orders, Hi.
  destruct (find_first_split _ _ _ Hfind) as (pre & post & -> & Hpre & Hsd).
  rewrite update_first_split by assumption.
  split; [|split; [reflexivity|split]].
  - apply find_first_prefix; [assumption|]. now apply patched_still_matches.
  - unfold patch. cbn [doc_fields]. rewrite callback_update_lookup.
    unfold patched_field. simpl. rewrite Hs. unfold lower.
    now rewrite Hascii.
  - apply lower_ascii_text_no_capital.
Qed.

Lemma callback_status_lower_witness :
  faults w_orders = [] /\ storable (VDict paid_X) = true /\
  has_invoice_id (H := repr0) paid_X = true /\
  has_status paid_X = true /\
  is_ascii (str (H := repr0) (status_source paid_X)) = true /\
  exists sd',
    find_first (invoice_filter (H := repr0) paid_X)
      (coll (db (snd (payment_callback (H := repr0) paid_X w_orders)))
         "order") = Some sd' /\
    doc_id sd' = 0%N /\
    lookup "status" (doc_fields sd') = Some (VStr "paid") /\
    no_capital "paid" = true.
Proof.
  do 5 (split; [reflexivity|]).
  exact (callback_status_lower (H := repr0) paid_X w_orders
           {| doc_id := 0;
              doc_fields := [("customer_name", VStr "Ann");
                             ("status", VStr "pending");
                             ("invoice_id", VStr "X")] |}
           eq_refl eq_refl eq_refl eq_refl eq_refl eq_refl eq_refl).
Defined.

(* ===================================================================== *)
(** ** Further properties: the diagnostic endpoint                        *)
(* ===================================================================== *)

Import Diag.

Lemma truthy_default (o : option string) (w : world) (k : string) :
  environ w !! k = o -> str_truthy (default "" o) = env_set w k.
Proof. intros Ho. unfold env_set. rewrite Ho. now destruct o. Qed.

(** X17. [test_database] never raises, reports the backend as running, and
    its [database_url] and [database_name] fields say only whether the
    variables [DATABASE_URL] and [DATABASE_NAME] are set to a non-empty
    value: what the database branch wrote there (the name of the database
    included) never reaches the response. *)
Theorem test_database_env_fields (imp : db_import) (w : world) :
  exists resp,
    fst (test_database imp w) = Ok resp /\
    get resp "backend" = VStr "✅ Running" /\
    get resp "database_url" =
      VStr (if env_set w "DATABASE_URL" then "✅ Set" else "❌ Not Set") /\
    get resp "database_name" =
      VStr (if env_set w "DATABASE_NAME" then "✅ Set" else "❌ Not Set").
Proof.
  unfold test_database, list_collection_names, driver, getenv. run.
  rewrite <- (truthy_default _ w "DATABASE_URL" eq_refl).
  rewrite <- (truthy_default _ w "DATABASE_NAME" eq_refl).
  destruct imp as [msg|msg|[h|]]; simpl;
    try (eexists; split; [reflexivity|]; repeat split; reflexivity).
  destruct (faults w) as [|[m|] fs]; simpl;
    eexists; (split; [reflexivity|]); repeat split; reflexivity.
Qed.

(** X18. [test_database] writes nothing to the store, and its
    [collections] field never holds more than ten names.  When the database
    is initialised and the listing goes through, the field holds the first
    ten of the names of the database object, in the order the driver lists
    them, and the database is reported connected and working; when the
    listing raises, the field is empty and the report carries the first
    fifty characters of the error text (characters, not bytes: a character
    encoded on several bytes counts once and is never cut); when there is
    no database object, the field is empty and the status is not
    connected. *)
Theorem test_database_collections (imp : db_import) (w : world) :
  exists resp names,
    fst (test_database imp w) = Ok resp /\
    db (snd (test_database imp w)) = db w /\
    get resp "collections" = VList (map VStr names) /\
    (length names <= 10)%nat /\
    match imp with
    | Imported (Some h) =>
        get resp "connection_status" = VStr "Connected" /\
        match faults w with
        | Some msg :: _ =>
            names = [] /\
            get resp "database" =
              VStr ("⚠️  Connected but Error: " +:+ take_chars 50 msg)
        | _ =>
            names = take 10 (collection_names h) /\
            get resp "database" = VStr "✅ Connected & Working"
        end
    | _ =>
        names = [] /\
        get resp "connection_status" = VStr "Not Connected"
    end.
Proof.
  assert (Hlen : forall l : list string, (length (take 10 l) <= 10)%nat).
  { intros l. rewrite length_take. lia. }
  unfold test_database, list_collection_names, driver, getenv, slice50. run.
  destruct imp as [msg|msg|[h|]]; simpl;
    try (eexists; exists []; split; [reflexivity|];
         repeat split; simpl; lia || reflexivity).
  destruct (faults w) as [|[m|] fs]; simpl.
  - eexists; exists (take 10 (collection_names h));
      (split; [reflexivity|]); repeat split; apply Hlen.
  - eexists; exists []; (split; [reflexivity|]); repeat split; simpl; lia.
  - eexists; exists (take 10 (collection_names h));
      (split; [reflexivity|]); repeat split; apply Hlen.
Qed.

(** A database object that lists twelve collections: the first ten are
    reported, in the order of the listing. *)
Example test_database_truncates :
  exists resp,
    fst (test_database (Imported (Some twelve_collections)) w_orders)
      = Ok resp /\
    get resp "collections" =
      VList (map VStr ["c0"; "c1"; "c2"; "c3"; "c4"; "c5"; "c6"; "c7";
                       "c8"; "c9"]) /\
    length (collection_names twelve_collections) = 12%nat /\
    get resp "database_name" = VStr "❌ Not Set".
Proof. eexists. repeat split; vm_compute; reflexivity. Qed.

(** The error text is cut after fifty characters, not fifty bytes: fifty
    two-byte letters are kept whole (a hundred bytes), the fifty-first is
    dropped. *)
Example slice50_counts_characters :
  let e := "é" in
  let fifty := fold_right (fun _ acc => e +:+ acc) "" (seq 0 50) in
  slice50 (fifty +:+ e +:+ "x") = fifty /\
  String.length fifty = 100%nat.
Proof. split; vm_compute; reflexivity. Qed.
